(** * The exponential-backoff fetch helper of src/App.jsx

    The application contains one piece of original logic, the helper
    [fetchWithBackoff], written out twice: once inside the component
    [DocBotPage] (App.jsx, lines 419-438) and once inside [PredictionPage]
    (lines 705-724).  This development embeds both copies and settles the
    retry contract of the specification against them.

    Modelling choices.
    - [retries] and [delay] are JavaScript numbers; the specification speaks
      of an integer attempt budget and a duration in milliseconds, so both
      are integers ([Z]) here.  Non-integral budgets are outside the model.
    - A defaulted parameter ([retries = 3], [delay = 1000]) is an [option]:
      [None] is an omitted argument.
    - [fetch] and [setTimeout] are the two effects.  The helper runs in a
      small state-and-exception monad whose state holds the mutable
      bindings of the call (the four parameters), the number of [fetch]
      calls issued so far, and the log of effects in program order.
    - The remote side is a [Transport]: the settled outcome of the k-th
      [fetch] issued by the call (k counted from 0), either a response or a
      rejection.  A promise that never settles is outside the model.
    - The [for] loop recurses on fuel and tests [i < retries] as the source
      does; [fetchWithBackoff] supplies the fuel and is proved never to
      exhaust it. *)

From Stdlib Require Import ZArith List String Ascii Bool Lia DecimalString Permutation.
From Corelib Require Import PrimFloat.
Import ListNotations.
Open Scope string_scope.
Open Scope list_scope.
Open Scope Z_scope.

(** ** Values crossing the boundary *)

(** The [options] object handed to [fetch]. *)
Record RequestInit := mkRequestInit {
  method : string;
  headers : list (string * string);
  body : string
}.

(** What the helper reads of a [Response]: the [ok] flag and the [status]
    code.  The two are separate fields, as the source reads them. *)
Record Response := mkResponse {
  ok : bool;
  status : Z;
  payload : string
}.

(** A thrown [Error] object. *)
Record Error := mkError {
  name : string;
  message : string
}.

(** [new Error(msg)] *)
Definition new_Error (msg : string) : Error :=
  {| name := "Error"; message := msg |}.

(** Settled state of the promise returned by one [fetch]. *)
Inductive Outcome :=
| Resolved (response : Response)
| Rejected (error : Error).

Definition Transport := nat -> Outcome.

(** [`${n}`] for an integral number. *)
Definition string_of_Z (n : Z) : string :=
  NilZero.string_of_int (Z.to_int n).

(** ** Effects *)

Inductive Event :=
| Fetch (url : string) (options : RequestInit)
| SetTimeout (ms : Z).

(** The parameters of one call; all four are assignable bindings. *)
Record Frame := mkFrame {
  url : string;
  options : RequestInit;
  retries : Z;
  delay : Z
}.

Record State := mkState {
  frame : Frame;
  fetched : nat;
  log : list Event
}.

Inductive Completion (A : Type) :=
| Normal (a : A)
| Thrown (e : Error)
| OutOfFuel.
Arguments Normal {A} a.
Arguments Thrown {A} e.
Arguments OutOfFuel {A}.

Definition Async (A : Type) := State -> Completion A * State.

Definition ret {A} (a : A) : Async A := fun s => (Normal a, s).

Definition bind {A B} (m : Async A) (k : A -> Async B) : Async B :=
  fun s =>
    match m s with
    | (Normal a, s') => k a s'
    | (Thrown e, s') => (Thrown e, s')
    | (OutOfFuel, s') => (OutOfFuel, s')
    end.

Definition throw {A} (e : Error) : Async A := fun s => (Thrown e, s).

Definition out_of_fuel {A} : Async A := fun s => (OutOfFuel, s).

(** [try { m } catch (error) { handler error }]: assignments and effects
    made before the throw are kept. *)
Definition try_catch {A} (m : Async A) (handler : Error -> Async A) : Async A :=
  fun s =>
    match m s with
    | (Thrown e, s') => handler e s'
    | r => r
    end.

Declare Scope async_scope.
Delimit Scope async_scope with async.
Notation "x <- m ;; k" := (bind m (fun x => k))
  (at level 61, m at next level, right associativity) : async_scope.
Notation "m ;; k" := (bind m (fun _ => k))
  (at level 61, right associativity) : async_scope.
Open Scope async_scope.

(** Read a binding of the frame. *)
Definition read {A} (var : Frame -> A) : Async A :=
  fun s => (Normal (var (frame s)), s).

(** [delay = d] *)
Definition assign_delay (d : Z) : Async unit :=
  fun s =>
    (Normal tt,
     {| frame := {| url := url (frame s); options := options (frame s);
                    retries := retries (frame s); delay := d |};
        fetched := fetched s;
        log := log s |}).

(** [await fetch(u, o)] against transport [t]. *)
Definition fetch (t : Transport) (u : string) (o : RequestInit) : Async Response :=
  fun s =>
    let s' := {| frame := frame s;
                 fetched := S (fetched s);
                 log := log s ++ [Fetch u o] |} in
    match t (fetched s) with
    | Resolved response => (Normal response, s')
    | Rejected error => (Thrown error, s')
    end.

(** [await new Promise(resolve => setTimeout(resolve, ms))] *)
Definition sleep (ms : Z) : Async unit :=
  fun s =>
    (Normal tt,
     {| frame := frame s; fetched := fetched s;
        log := log s ++ [SetTimeout ms] |}).

(** How one pass through the loop body ends. *)
Inductive Flow :=
| Return (response : Response)
| Continue.

(** Value of the call expression: a response, or [undefined] when control
    falls off the end of the function. *)
Inductive Returned :=
| Value (response : Response)
| Undefined.

Definition default (d : Z) (arg : option Z) : Z :=
  match arg with
  | Some v => v
  | None => d
  end.

Definition initial (u : string) (o : RequestInit) (n d : option Z) : State :=
  {| frame := {| url := u; options := o;
                 retries := default 3 n; delay := default 1000 d |};
     fetched := 0;
     log := [] |}.

(** ** The copy inside DocBotPage (App.jsx 419-438) *)

Module DocBotPage.

Definition iteration (t : Transport) (i : Z) : Async Flow :=
  try_catch
    (u <- read url ;;
     o <- read options ;;
     response <- fetch t u o ;;
     if ok response then
       ret (Return response)
     else
       n <- read retries ;;
       if (status response =? 429) && (i <? n - 1) then
         d <- read delay ;;
         sleep d ;;
         d <- read delay ;;
         assign_delay (d * 2) ;;
         ret Continue
       else
         throw (new_Error ("API returned status " ++ string_of_Z (status response))%string))
    (fun error =>
       n <- read retries ;;
       if i =? n - 1 then throw error
       else
         d <- read delay ;;
         sleep d ;;
         d <- read delay ;;
         assign_delay (d * 2) ;;
         ret Continue).

(** [for (let i = 0; i < retries; i++) { ... }] followed by the end of the
    function body. *)
Fixpoint loop (t : Transport) (fuel : nat) (i : Z) : Async Returned :=
  match fuel with
  | O => out_of_fuel
  | S fuel' =>
      n <- read retries ;;
      if i <? n then
        flow <- iteration t i ;;
        match flow with
        | Return response => ret (Value response)
        | Continue => loop t fuel' (i + 1)
        end
      else ret Undefined
  end.

Definition fetchWithBackoff (t : Transport) (u : string) (o : RequestInit)
    (n d : option Z) : Completion Returned * State :=
  loop t (S (Z.to_nat (default 3 n))) 0 (initial u o n d).

End DocBotPage.

(** ** The copy inside PredictionPage (App.jsx 705-724) *)

Module PredictionPage.

Definition iteration (t : Transport) (i : Z) : Async Flow :=
  try_catch
    (u <- read url ;;
     o <- read options ;;
     response <- fetch t u o ;;
     if ok response then
       ret (Return response)
     else
       n <- read retries ;;
       if (status response =? 429) && (i <? n - 1) then
         d <- read delay ;;
         sleep d ;;
         d <- read delay ;;
         assign_delay (d * 2) ;;
         ret Continue
       else
         throw (new_Error ("API returned status " ++ string_of_Z (status response))%string))
    (fun error =>
       n <- read retries ;;
       if i =? n - 1 then throw error
       else
         d <- read delay ;;
         sleep d ;;
         d <- read delay ;;
         assign_delay (d * 2) ;;
         ret Continue).

Fixpoint loop (t : Transport) (fuel : nat) (i : Z) : Async Returned :=
  match fuel with
  | O => out_of_fuel
  | S fuel' =>
      n <- read retries ;;
      if i <? n then
        flow <- iteration t i ;;
        match flow with
        | Return response => ret (Value response)
        | Continue => loop t fuel' (i + 1)
        end
      else ret Undefined
  end.

Definition fetchWithBackoff (t : Transport) (u : string) (o : RequestInit)
    (n d : option Z) : Completion Returned * State :=
  loop t (S (Z.to_nat (default 3 n))) 0 (initial u o n d).

End PredictionPage.

(** The two places the helper is defined. *)
Inductive Site := InDocBotPage | InPredictionPage.

Definition fetchWithBackoffAt (site : Site) :=
  match site with
  | InDocBotPage => DocBotPage.fetchWithBackoff
  | InPredictionPage => PredictionPage.fetchWithBackoff
  end.

(** ** Sample inputs *)

Definition GEMINI_API_URL : string := "https://generativelanguage.googleapis.com/".

Definition post : RequestInit :=
  {| method := "POST";
     headers := [("Content-Type", "application/json")];
     body := "{}" |}.

Definition response_ok : Response := {| ok := true; status := 200; payload := "{}" |}.
Definition response_429 : Response := {| ok := false; status := 429; payload := "" |}.
Definition response_500 : Response := {| ok := false; status := 500; payload := "" |}.

Definition always (o : Outcome) : Transport := fun _ => o.

(** Outcomes listed in order; the last one repeats. *)
Fixpoint script (os : list Outcome) (last : Outcome) (k : nat) : Outcome :=
  match os, k with
  | [], _ => last
  | o :: _, O => o
  | _ :: os', S k' => script os' last k'
  end.

Definition network_down : Error := {| name := "TypeError"; message := "Failed to fetch" |}.

(** ** Vocabulary of the specification *)

(** Classification of one attempt (specification, 4.1 step 3). *)
Inductive AttemptClass := Success | RetryableFailure | FatalFailure.

Definition classify (o : Outcome) : AttemptClass :=
  match o with
  | Rejected _ => RetryableFailure
  | Resolved r =>
      if ok r then Success
      else if status r =? 429 then RetryableFailure
      else FatalFailure
  end.

(** The attempt did not produce a response with [ok] set. *)
Definition failed (o : Outcome) : bool :=
  match o with
  | Rejected _ => true
  | Resolved r => negb (ok r)
  end.

(** The failure reason of a failed attempt: the rejection itself, or the
    [Error] the helper builds from the status. *)
Definition reason (o : Outcome) : Error :=
  match o with
  | Rejected e => e
  | Resolved r => new_Error ("API returned status " ++ string_of_Z (status r))%string
  end.

(** The delays handed to [setTimeout], in order. *)
Fixpoint waits (l : list Event) : list Z :=
  match l with
  | [] => []
  | SetTimeout ms :: l' => ms :: waits l'
  | Fetch _ _ :: l' => waits l'
  end.

(** The number of [fetch] calls in a log. *)
Fixpoint attempts (l : list Event) : nat :=
  match l with
  | [] => O
  | Fetch _ _ :: l' => S (attempts l')
  | SetTimeout _ :: l' => attempts l'
  end.

(** [k] failed attempts, each followed by its wait, starting at delay [d]. *)
Fixpoint rounds (u : string) (o : RequestInit) (d : Z) (k : nat) : list Event :=
  match k with
  | O => []
  | S k' => Fetch u o :: SetTimeout d :: rounds u o (d * 2) k'
  end.

(** [d; 2d; 4d; ...], [k] entries. *)
Fixpoint doubling (d : Z) (k : nat) : list Z :=
  match k with
  | O => []
  | S k' => d :: doubling (d * 2) k'
  end.

(** State after the [fetch] of one attempt. *)
Definition after_fetch (s : State) : State :=
  {| frame := frame s;
     fetched := S (fetched s);
     log := log s ++ [Fetch (url (frame s)) (options (frame s))] |}.

(** State after the wait and the doubling of [delay]. *)
Definition after_backoff (s : State) : State :=
  {| frame := {| url := url (frame s); options := options (frame s);
                 retries := retries (frame s); delay := delay (frame s) * 2 |};
     fetched := fetched s;
     log := log s ++ [SetTimeout (delay (frame s))] |}.

Fixpoint after_failures (k : nat) (s : State) : State :=
  match k with
  | O => s
  | S k' => after_failures k' (after_backoff (after_fetch s))
  end.

(** State in which a call ends when its last attempt is attempt [k+1]:
    [k] attempts were retried, the budget is [n], the first delay [d]. *)
Definition finished (u : string) (o : RequestInit) (n d : Z) (k : nat) : State :=
  {| frame := {| url := u; options := o; retries := n;
                 delay := d * 2 ^ Z.of_nat k |};
     fetched := S k;
     log := rounds u o d k ++ [Fetch u o] |}.

(** The transport of the end-to-end scenario: 429, 429, then 200. *)
Definition rate_limited_twice : Transport :=
  script [Resolved response_429; Resolved response_429] (Resolved response_ok).

(** * The rest of App.jsx: symptom selection, search, and the two flows
    that call the helper

    A JavaScript string is the sequence of its UTF-16 code units; a
    character of a [string] here stands for one code unit, so the strings
    of the model are those whose code units lie below 256.  On them
    [toLowerCase], [trim], [includes] and [===] are the functions below.
    The order of [localeCompare] belongs to the host's collation and stays
    a parameter. *)

(** ** Strings *)

(** [s.toLowerCase()], one code unit at a time: A-Z and the capital letters
    of Latin-1 (U+00C0 to U+00DE without the multiplication sign) move up
    by 32. *)
Definition lower_unit (c : ascii) : ascii :=
  let n := nat_of_ascii c in
  if ((65 <=? n) && (n <=? 90) ||
      (192 <=? n) && (n <=? 222) && negb (n =? 215))%nat
  then ascii_of_nat (n + 32)
  else c.

Fixpoint toLowerCase (s : string) : string :=
  match s with
  | EmptyString => EmptyString
  | String c s' => String (lower_unit c) (toLowerCase s')
  end.

(** [s.includes(sub)] *)
Fixpoint str_includes (s sub : string) : bool :=
  String.prefix sub s ||
  match s with
  | EmptyString => false
  | String _ s' => str_includes s' sub
  end.

(** White space and line terminators below U+0100: TAB, LF, VT, FF, CR,
    SP and NBSP. *)
Definition is_space (c : ascii) : bool :=
  let n := nat_of_ascii c in
  ((9 <=? n) && (n <=? 13) || (n =? 32) || (n =? 160))%nat.

Fixpoint trimStart (s : string) : string :=
  match s with
  | EmptyString => EmptyString
  | String c s' => if is_space c then trimStart s' else s
  end.

(** Drops trailing white space: a space is dropped when nothing but
    spaces follows it. *)
Fixpoint trimEnd (s : string) : string :=
  match s with
  | EmptyString => EmptyString
  | String c s' =>
      match trimEnd s' with
      | EmptyString => if is_space c then EmptyString else String c EmptyString
      | rest => String c rest
      end
  end.

(** [s.trim()] *)
Definition trim (s : string) : string := trimEnd (trimStart s).

(** Truthiness of a string: it is not empty. *)
Definition nonempty (s : string) : bool :=
  match s with
  | EmptyString => false
  | String _ _ => true
  end.

(** [parts.join(sep)] *)
Fixpoint join (sep : string) (parts : list string) : string :=
  match parts with
  | [] => EmptyString
  | [x] => x
  | x :: rest => (x ++ sep ++ join sep rest)%string
  end.

(** ** Symptom data (App.jsx 39-63) *)

Definition ALL_SYMPTOMS_CATEGORIZED : list (string * list string) :=
  [ ("General",
     ["Fatigue"; "Fever"; "Headache"; "Dizziness"; "Nausea"; "Vomiting"; "Body Ache";
      "Chills"; "Sore Throat"; "Diarrhea"; "Constipation"; "Runny Nose"]);
    ("Respiratory",
     ["Cough"; "Shortness of Breath"; "Wheezing"; "Chest Tightness"; "Difficulty Breathing";
      "Sputum Production"; "Sneezing"; "Hoarseness"]);
    ("Cardiac",
     ["Chest Pain"; "Palpitations"; "Fainting"; "Swelling of Legs/Ankles";
      "Rapid Heartbeat"; "Lightheadedness"; "Pain Radiating to Jaw/Arm"]);
    ("Skin",
     ["Rash"; "Itching"; "Hives"; "Dry Skin"; "Jaundice"; "Bruising";
      "Change in Mole appearance"; "Redness/Inflammation"]);
    ("Musculoskeletal",
     ["Joint Pain"; "Muscle Pain"; "Back Pain"; "Stiffness"; "Swollen Joints";
      "Limited Range of Motion"; "Numbness/Tingling"]) ].

(** [Object.keys(ALL_SYMPTOMS_CATEGORIZED)] *)
Definition SYMPTOM_CATEGORIES : list string :=
  map fst ALL_SYMPTOMS_CATEGORIZED.

(** The own property [cat] of [ALL_SYMPTOMS_CATEGORIZED]; [None] when the
    table has no such key. *)
Definition symptoms_of (cat : string) : option (list string) :=
  match find (fun entry => String.eqb (fst entry) cat) ALL_SYMPTOMS_CATEGORIZED with
  | Some entry => Some (snd entry)
  | None => None
  end.

(** Every symptom of the table, category after category:
    [SYMPTOM_CATEGORIES.flatMap(cat => ALL_SYMPTOMS_CATEGORIZED[cat])]. *)
Definition catalogue : list string :=
  flat_map snd ALL_SYMPTOMS_CATEGORIZED.

(** [x || []] for an array or [undefined]. *)
Definition or_empty (x : option (list string)) : list string :=
  match x with
  | Some l => l
  | None => []
  end.

(** The names every object literal inherits from [Object.prototype]
    (ECMAScript and its Annex B), in a host that has not added others.
    Their values are functions, and for [__proto__] the prototype object
    itself: truthy, and without a [filter] method. *)
Definition OBJECT_PROTOTYPE_NAMES : list string :=
  ["constructor"; "hasOwnProperty"; "isPrototypeOf"; "propertyIsEnumerable";
   "toLocaleString"; "toString"; "valueOf";
   "__defineGetter__"; "__defineSetter__"; "__lookupGetter__"; "__lookupSetter__";
   "__proto__"].

Definition inherited (k : string) : bool :=
  existsb (String.eqb k) OBJECT_PROTOTYPE_NAMES.

(** What a property read on the table yields. *)
Inductive CategoryRead :=
| AnArray (symptoms : list string)     (* an array of the table *)
| Inherited                            (* a value found on the prototype *)
| Missing.                             (* [undefined] *)

(** [ALL_SYMPTOMS_CATEGORIZED[cat]]: the own property when there is one,
    else what the prototype chain has under that name. *)
Definition category_read (cat : string) : CategoryRead :=
  match symptoms_of cat with
  | Some l => AnArray l
  | None => if inherited cat then Inherited else Missing
  end.

(** ** Symptom selection and search in PredictionPage (App.jsx 791-813) *)

Module Symptoms.

(** [prev.includes(symptom)] *)
Definition includes (prev : list string) (symptom : string) : bool :=
  existsb (fun s => String.eqb s symptom) prev.

(** The updater handed to [setSelectedSymptoms] by [toggleSymptom]. *)
Definition toggleSymptom (symptom : string) (prev : list string) : list string :=
  if includes prev symptom
  then filter (fun s => negb (String.eqb s symptom)) prev
  else prev ++ [symptom].

(** The value [clearSymptoms] sets. *)
Definition clearSymptoms : list string := [].

(** [filteredSymptoms]; [sort] is [Array.prototype.sort] under
    [(a, b) => a.localeCompare(b)].  Every name in [SYMPTOM_CATEGORIES] is
    an own key of the table, so the [flatMap] reads own properties only.
    The active category can be any name: a value inherited from the
    prototype is truthy, passes [|| []], and has no [filter], so calling it
    throws. *)
Definition filteredSymptoms (sort : list string -> list string)
    (activeCategory searchQuery : string) : Error + list string :=
  let symptoms :=
    if nonempty searchQuery
    then AnArray (flat_map (fun cat => or_empty (symptoms_of cat)) SYMPTOM_CATEGORIES)
    else
      match category_read activeCategory with
      | Missing => AnArray []
      | found => found
      end in
  let lowerCaseQuery := toLowerCase searchQuery in
  match symptoms with
  | AnArray l =>
      inr (sort (filter (fun s => str_includes (toLowerCase s) lowerCaseQuery) l))
  | _ =>
      inl {| name := "TypeError"; message := "symptoms.filter is not a function" |}
  end.

(** The test [isEmergency] applies to each selected symptom. *)
Definition alarming (s : string) : bool :=
  str_includes (toLowerCase s) "chest pain" ||
  str_includes (toLowerCase s) "difficulty breathing".

End Symptoms.

(** ** Values *)

(** What [JSON.parse] and [response.json()] can produce, and [undefined]. *)
#[warnings="-register-all"]
Inductive JsValue :=
| VUndefined
| VNull
| VBool (b : bool)
| VNum (x : float)
| VStr (s : string)
| VArr (items : list JsValue)
| VObj (fields : list (string * JsValue)).

(** Truthiness.  A number is falsy when it is a zero or [NaN]. *)
Definition truthy (v : JsValue) : bool :=
  match v with
  | VUndefined | VNull => false
  | VBool b => b
  | VNum x => PrimFloat.eqb x x && negb (PrimFloat.eqb x 0)
  | VStr s => nonempty s
  | VArr _ | VObj _ => true
  end.

(** [a || b] *)
Definition or_else (a b : JsValue) : JsValue := if truthy a then a else b.

(** Own property [k] of an object with the given fields. *)
Definition own (fields : list (string * JsValue)) (k : string) : JsValue :=
  match find (fun entry => String.eqb (fst entry) k) fields with
  | Some entry => snd entry
  | None => VUndefined
  end.

Definition TypeError (msg : string) : Error :=
  {| name := "TypeError"; message := msg |}.

(** The [TypeError] of a property read on [null] or [undefined], in the
    wording of V8. *)
Definition cannot_read (v : JsValue) (k : string) : Error :=
  TypeError ("Cannot read properties of "
             ++ (match v with VNull => "null" | _ => "undefined" end)
             ++ " (reading '" ++ k ++ "')")%string.

(** [v.k], for the names the code reads ([candidates], [content], [parts],
    [text], [emergency_flag]); none of them is a property of a built-in
    prototype, so only objects can have them. *)
Definition get (v : JsValue) (k : string) : Error + JsValue :=
  match v with
  | VUndefined | VNull => inl (cannot_read v k)
  | VObj fields => inr (own fields k)
  | _ => inr VUndefined
  end.

(** [v?.k] *)
Definition get_opt (v : JsValue) (k : string) : JsValue :=
  match v with
  | VObj fields => own fields k
  | _ => VUndefined
  end.

(** [v?.[0]]: first element of an array, first code unit of a string,
    property "0" of an object. *)
Definition first_opt (v : JsValue) : JsValue :=
  match v with
  | VArr (x :: _) => x
  | VStr (String c _) => VStr (String c EmptyString)
  | VObj fields => own fields "0"
  | _ => VUndefined
  end.

(** [x?.[0]?.content?.parts?.[0]?.text] applied to [x = result.candidates]. *)
Definition first_candidate_text (candidates : JsValue) : JsValue :=
  get_opt (first_opt (get_opt (get_opt (first_opt candidates) "content") "parts")) "text".

(** ** The world around the two flows *)

(** What the flows cannot decide themselves. *)
Record World := mkWorld {
  apiKey : string;                             (* env.VITE_VAIDYA_MITHRA_GEMINI_KEY || "" *)
  transport : Transport;                       (* outcomes of fetch, in call order *)
  response_json : Response -> Error + JsValue;   (* await response.json() *)
  JSON_parse : JsValue -> Error + JsValue;         (* JSON.parse(x) *)
  JSON_stringify : JsValue -> string;            (* JSON.stringify(x) *)
  number_text : float -> string;               (* `${x}` for a number *)
  setDoc_outcome : nat -> option Error;        (* k-th setDoc of the call; None: resolved *)
  auto_id : nat -> string                      (* id of the k-th doc(collection) *)
}.

(** The props both pages receive from [App]. *)
Record Services := mkServices {
  db : bool;                 (* a Firestore handle, or null *)
  userId : option string;    (* a uid, or null *)
  appId : option string      (* firebaseConfig.appId, or null *)
}.

(** Truthiness of a string that may be [null]. *)
Definition present (x : option string) : bool :=
  match x with
  | Some s => nonempty s
  | None => false
  end.

(** [`${x}`] for a string that may be [null]. *)
Definition text_of (x : option string) : string :=
  match x with
  | Some s => s
  | None => "null"
  end.

(** [GEMINI_API_URL] (App.jsx 10-12). *)
Definition api_url (w : World) : string :=
  ("https://generativelanguage.googleapis.com/v1beta/models/gemini-2.5-flash-preview-09-2025:generateContent?key="
   ++ apiKey w)%string.

(** The sentinel [serverTimestamp()] returns. *)
Definition serverTimestamp : JsValue :=
  VObj [("_methodName", VStr "serverTimestamp")].

(** What a flow does, in program order. *)
Inductive Effect :=
| Net (e : Event)
| SetDoc (path id : string) (data : JsValue)
| SetCurrentMessage (s : string)
| SetIsTyping (b : bool)
| SetPredictionResult (v : JsValue)
| SetIsLoading (b : bool)
| ScrollTimer (ms : Z)
| ConsoleError (label : string) (e : Error)
| ConsoleMessage (text : string)
| Sdk (call : string) (arg : option JsValue)
| SetDb
| SetAuth
| SetAppId (v : JsValue)
| SetAuthReady (b : bool)
| CallAttemptAuth.

Record Progress := mkProgress {
  writes : nat;              (* setDoc calls issued *)
  ids : nat;                 (* document references created *)
  effects : list Effect
}.

Definition start : Progress := {| writes := 0; ids := 0; effects := [] |}.

Definition Task (A : Type) := Progress -> Completion A * Progress.

Definition done {A} (a : A) : Task A := fun s => (Normal a, s).

Definition andThen {A B} (m : Task A) (k : A -> Task B) : Task B :=
  fun s =>
    match m s with
    | (Normal a, s') => k a s'
    | (Thrown e, s') => (Thrown e, s')
    | (OutOfFuel, s') => (OutOfFuel, s')
    end.

Definition reject {A} (e : Error) : Task A := fun s => (Thrown e, s).

(** [try { body } catch (error) { handler error } finally { final }] *)
Definition try_catch_finally {A} (body : Task A) (handler : Error -> Task A)
    (final : Task unit) : Task A :=
  fun s =>
    let (c, s1) :=
      match body s with
      | (Thrown e, s') => handler e s'
      | r => r
      end in
    match final s1 with
    | (Normal _, s2) => (c, s2)
    | (Thrown e, s2) => (Thrown e, s2)
    | (OutOfFuel, s2) => (OutOfFuel, s2)
    end.

Declare Scope task_scope.
Delimit Scope task_scope with task.
Notation "x <- m ;; k" := (andThen m (fun x => k))
  (at level 61, m at next level, right associativity) : task_scope.
Notation "m ;; k" := (andThen m (fun _ => k))
  (at level 61, right associativity) : task_scope.

Definition emit (e : Effect) : Task unit :=
  fun s =>
    (Normal tt,
     {| writes := writes s; ids := ids s; effects := effects s ++ [e] |}).

(** A value that is there, or the error thrown instead. *)
Definition settle {A} (r : Error + A) : Task A :=
  match r with
  | inl e => reject e
  | inr a => done a
  end.

(** [doc(collection(db, path))]: a reference with a fresh id. *)
Definition doc (w : World) (path : string) : Task (string * string) :=
  fun s =>
    (Normal (path, auto_id w (ids s)),
     {| writes := writes s; ids := S (ids s); effects := effects s |}).

(** [await setDoc(ref, data)] *)
Definition setDoc (w : World) (ref : string * string) (data : JsValue) : Task unit :=
  fun s =>
    let s' := {| writes := S (writes s); ids := ids s;
                 effects := effects s ++ [SetDoc (fst ref) (snd ref) data] |} in
    match setDoc_outcome w (writes s) with
    | None => (Normal tt, s')
    | Some e => (Thrown e, s')
    end.

(** [await fetchWithBackoff(...)]: the helper's requests and waits join
    the effects of the caller. *)
Definition awaitBackoff (run : Completion Returned * State) : Task Returned :=
  fun s =>
    (fst run,
     {| writes := writes s; ids := ids s;
        effects := effects s ++ map Net (log (snd run)) |}).

(** [await response.json()] for what the helper returned. *)
Definition json_of (w : World) (response : Returned) : Task JsValue :=
  match response with
  | Value r => settle (response_json w r)
  | Undefined => reject (cannot_read VUndefined "json")
  end.

(** The [options] both flows pass to the helper. *)
Definition post_json (w : World) (payload : JsValue) : RequestInit :=
  {| method := "POST";
     headers := [("Content-Type", "application/json")];
     body := JSON_stringify w payload |}.

(** ** The chat flow of DocBotPage (App.jsx 376, 440-510) *)

Module Chat.

Definition CHAT_BOT_SYSTEM_INSTRUCTION : string :=
  "You are a friendly, non-diagnostic AI assistant named DocBot. Your role is to answer general health questions, provide basic medical information, explain symptoms, and offer clear advice on when to see a doctor. Never provide a formal diagnosis, treatment, or specific medication advice. Keep responses encouraging and concise. Only provide one possible condition and safe general advice. Use Google Search grounding when necessary.".

(** The state the handler closes over.  A history entry is the object the
    snapshot listener builds, given by its fields. *)
Record View := mkView {
  chatHistory : list (list (string * JsValue));
  currentMessage : string;
  isTyping : bool
}.

(** [msg.role === 'ai'] *)
Definition is_ai (role : JsValue) : bool :=
  match role with
  | VStr r => String.eqb r "ai"
  | _ => false
  end.

(** One element of [chatHistory.map(msg => ...)]. *)
Definition api_entry (msg : list (string * JsValue)) : JsValue :=
  VObj [("role", VStr (if is_ai (own msg "role") then "model" else "user"));
        ("parts", VArr [VObj [("text", own msg "text")]])].

(** [apiHistory] after the [push]. *)
Definition apiHistory (v : View) (userMessage : string) : list JsValue :=
  map api_entry (chatHistory v)
  ++ [VObj [("role", VStr "user"); ("parts", VArr [VObj [("text", VStr userMessage)]])]].

Definition payload (v : View) (userMessage : string) : JsValue :=
  VObj [("contents", VArr (apiHistory v userMessage));
        ("tools", VArr [VObj [("google_search", VObj [])]]);
        ("systemInstruction",
         VObj [("parts", VArr [VObj [("text", VStr CHAT_BOT_SYSTEM_INSTRUCTION)]])])].

Definition chat_path (p : Services) : string :=
  ("artifacts/" ++ text_of (appId p) ++ "/users/" ++ text_of (userId p) ++ "/docbot_chat")%string.

(** A document of the chat collection. *)
Definition message_doc (text : JsValue) (role id : string) : JsValue :=
  VObj [("text", text); ("role", VStr role);
        ("timestamp", serverTimestamp); ("id", VStr id)].

Definition fallback_text : string :=
  "Sorry, I couldn't process that request right now. Please try again later.".

Definition error_text : string :=
  "I ran into a technical error. Please try refreshing or checking your network connection.".

(** [handleSend(messageText)]; [None] is a call without a string argument. *)
Definition handleSend (w : World) (p : Services) (v : View)
    (messageText : option string) : Task unit :=
  (let message :=
     match messageText with
     | Some text => text
     | None => currentMessage v
     end in
   if negb (nonempty (trim message)) || isTyping v || negb (db p)
      || negb (present (userId p)) || negb (present (appId p))
   then done tt
   else
     let userMessage := trim message in
     emit (SetCurrentMessage "") ;;
     let chatCollectionRef := chat_path p in
     userDocRef <- doc w chatCollectionRef ;;
     setDoc w userDocRef (message_doc (VStr userMessage) "user" (snd userDocRef)) ;;
     emit (SetIsTyping true) ;;
     try_catch_finally
       (response <- awaitBackoff
                      (DocBotPage.fetchWithBackoff (transport w) (api_url w)
                         (post_json w (payload v userMessage)) None None) ;;
        result <- json_of w response ;;
        candidates <- settle (get result "candidates") ;;
        let aiText := or_else (first_candidate_text candidates) (VStr fallback_text) in
        aiDocRef <- doc w chatCollectionRef ;;
        setDoc w aiDocRef (message_doc aiText "ai" (snd aiDocRef)))
       (fun error =>
          emit (ConsoleError "Chatbot API failed:" error) ;;
          errorDocRef <- doc w chatCollectionRef ;;
          setDoc w errorDocRef (message_doc (VStr error_text) "ai_error" (snd errorDocRef)))
       (emit (SetIsTyping false)))%task.

End Chat.

(** ** The prediction flow of PredictionPage (App.jsx 14-36, 727-788, 813) *)

Module Prediction.

Definition JSON_SCHEMA : JsValue :=
  VObj
    [("type", VStr "OBJECT");
     ("properties",
      VObj
        [("emergency_flag",
          VObj [("type", VStr "BOOLEAN");
                ("description", VStr "True if symptoms indicate a severe, life-threatening emergency (e.g., severe chest pain, inability to breathe, stroke signs). False otherwise.")]);
         ("predictions",
          VObj
            [("type", VStr "ARRAY");
             ("description", VStr "List of the top 3 most probable diseases based on symptoms, age, and gender.");
             ("items",
              VObj
                [("type", VStr "OBJECT");
                 ("properties",
                  VObj
                    [("disease", VObj [("type", VStr "STRING"); ("description", VStr "The name of the potential condition.")]);
                     ("confidence", VObj [("type", VStr "NUMBER"); ("description", VStr "A confidence score between 0.0 and 1.0 (e.g., 0.85 for 85%).")]);
                     ("description", VObj [("type", VStr "STRING"); ("description", VStr "A brief, non-alarming, and clear overview of the disease and suggested next steps (e.g., call a doctor in 24 hours, monitor symptoms).")])]);
                 ("required", VArr [VStr "disease"; VStr "confidence"; VStr "description"])])])]);
     ("required", VArr [VStr "emergency_flag"; VStr "predictions"])].

Record View := mkView {
  selectedSymptoms : list string;
  age : float;
  gender : string
}.

Definition userQuery (w : World) (v : View) : string :=
  ("The patient is a " ++ number_text w (age v) ++ " year old " ++ gender v
   ++ ". They are currently experiencing the following symptoms: "
   ++ join ", " (selectedSymptoms v)
   ++ ". Please act as a professional medical analyst and provide the top 3 most likely differential diagnoses, a confidence score (0.0 to 1.0) for each, and non-alarming, concise next steps/advice. Focus strictly on the JSON output format.")%string.

Definition payload (w : World) (v : View) : JsValue :=
  VObj [("contents", VArr [VObj [("parts", VArr [VObj [("text", VStr (userQuery w v))]])]]);
        ("generationConfig",
         VObj [("responseMimeType", VStr "application/json");
               ("responseSchema", JSON_SCHEMA)])].

Definition history_path (p : Services) : string :=
  ("artifacts/" ++ text_of (appId p) ++ "/users/" ++ text_of (userId p) ++ "/symptom_history")%string.

Definition history_doc (v : View) (parsedResult : JsValue) : JsValue :=
  VObj [("symptoms", VArr (map VStr (selectedSymptoms v)));
        ("age", VNum (age v));
        ("gender", VStr (gender v));
        ("result", parsedResult);
        ("timestamp", serverTimestamp)].

(** [{ error: `Could not retrieve AI prediction. ${error.message}` }] *)
Definition error_result (error : Error) : JsValue :=
  VObj [("error", VStr ("Could not retrieve AI prediction. " ++ message error)%string)].

Definition handlePrediction (w : World) (p : Services) (v : View) : Task unit :=
  (match selectedSymptoms v with
   | [] => emit (SetPredictionResult VNull)
   | _ :: _ =>
     emit (SetIsLoading true) ;;
     emit (SetPredictionResult VNull) ;;
     emit (ScrollTimer 100) ;;
     try_catch_finally
       (response <- awaitBackoff
                      (PredictionPage.fetchWithBackoff (transport w) (api_url w)
                         (post_json w (payload w v)) None None) ;;
        result <- json_of w response ;;
        candidates <- settle (get result "candidates") ;;
        let jsonString := first_candidate_text candidates in
        if negb (truthy jsonString)
        then reject (new_Error "Invalid response format from AI.")
        else
          parsedResult <- settle (JSON_parse w jsonString) ;;
          emit (SetPredictionResult parsedResult) ;;
          if db p && present (userId p) && present (appId p)
          then
            ref <- doc w (history_path p) ;;
            setDoc w ref (history_doc v parsedResult)
          else done tt)
       (fun error =>
          emit (ConsoleError "Prediction failed:" error) ;;
          emit (SetPredictionResult (error_result error)))
       (emit (SetIsLoading false))
   end)%task.

(** [isEmergency], as the page tests it. *)
Definition isEmergency (predictionResult : JsValue) (selected : list string) : bool :=
  truthy (get_opt predictionResult "emergency_flag")
  || existsb Symptoms.alarming selected.

End Prediction.

(** ** Start-up of App (App.jsx 1093-1179) *)

Module Startup.

(** A call into the Firebase SDK; [sdk] tells which calls throw.  The
    argument is recorded when it is a value, not when it is an SDK handle
    or a callback. *)
Definition sdk_call (sdk : string -> option Error) (call : string) (arg : option JsValue)
    : Task unit :=
  fun s =>
    (match sdk call with
     | None => Normal tt
     | Some e => Thrown e
     end,
     {| writes := writes s; ids := ids s; effects := effects s ++ [Sdk call arg] |}).

(** [env.VITE_FIREBASE_CONFIG || '{}'] *)
Definition firebaseConfigStr (configEnv : option string) : string :=
  match configEnv with
  | Some text => if nonempty text then text else "{}"
  | None => "{}"
  end.

(** The body of the start-up effect up to its return.  [isMounted] is true
    throughout, the clean-up cannot run before the body has returned.
    [attemptAuth()] is started and not awaited. *)
Definition initialize (w : World) (sdk : string -> option Error)
    (configEnv : option string) : Task unit :=
  (try_catch_finally
     (if String.eqb (firebaseConfigStr configEnv) "{}"
      then emit (ConsoleMessage "Firebase config is missing or empty! Make sure VITE_FIREBASE_CONFIG is set in Vercel.")
      else
        firebaseConfig <- settle (JSON_parse w (VStr (firebaseConfigStr configEnv))) ;;
        configKey <- settle (get firebaseConfig "apiKey") ;;
        if negb (truthy configKey)
        then emit (ConsoleMessage "Firebase config is missing apiKey! Check your VITE_FIREBASE_CONFIG.")
        else
          newAppId <- settle (get firebaseConfig "appId") ;;
          if negb (truthy newAppId)
          then emit (ConsoleMessage "Your firebaseConfig is missing the 'appId'!")
          else
            sdk_call sdk "initializeApp" (Some firebaseConfig) ;;
            sdk_call sdk "getFirestore" None ;;
            sdk_call sdk "setLogLevel" (Some (VStr "debug")) ;;
            sdk_call sdk "getAuth" None ;;
            emit SetDb ;;
            emit SetAuth ;;
            emit (SetAppId newAppId) ;;
            emit CallAttemptAuth ;;
            sdk_call sdk "onAuthStateChanged" None)
     (fun e =>
        emit (ConsoleError "Firebase Initialization Failed (Overall Catch):" e) ;;
        emit (SetAuthReady true))
     (done tt))%task.

End Startup.

(** The configuration text parses to a value whose [apiKey] and [appId]
    are both truthy. *)
Definition usable_config (w : World) (configEnv : option string) (config appId : JsValue)
    : Prop :=
  Startup.firebaseConfigStr configEnv <> "{}" /\
  JSON_parse w (VStr (Startup.firebaseConfigStr configEnv)) = inr config /\
  (exists key, get config "apiKey" = inr key /\ truthy key = true) /\
  get config "appId" = inr appId /\
  truthy appId = true.

(** The start-up set the ready flag. *)
Definition marks_ready (l : list Effect) : bool :=
  existsb (fun e => match e with SetAuthReady true => true | _ => false end) l.

(** The start-up touched the SDK or handed out its handles. *)
Definition touches_firebase (l : list Effect) : bool :=
  existsb (fun e =>
             match e with
             | Sdk _ _ | SetDb | SetAuth | SetAppId _ | CallAttemptAuth => true
             | _ => false
             end) l.

(** ** Reading the effects of a flow *)

(** The documents handed to [setDoc], in order. *)
Fixpoint written (l : list Effect) : list JsValue :=
  match l with
  | [] => []
  | SetDoc _ _ data :: l' => data :: written l'
  | _ :: l' => written l'
  end.

(** The requests and waits of the helper inside a flow. *)
Fixpoint network (l : list Effect) : list Event :=
  match l with
  | [] => []
  | Net e :: l' => e :: network l'
  | _ :: l' => network l'
  end.

(** The values given to [setIsTyping] and [setIsLoading], in order. *)
Fixpoint busy_flags (l : list Effect) : list bool :=
  match l with
  | [] => []
  | SetIsTyping b :: l' => b :: busy_flags l'
  | SetIsLoading b :: l' => b :: busy_flags l'
  | _ :: l' => busy_flags l'
  end.

(** The values given to [setPredictionResult], in order. *)
Fixpoint shown (l : list Effect) : list JsValue :=
  match l with
  | [] => []
  | SetPredictionResult v :: l' => v :: shown l'
  | _ :: l' => shown l'
  end.

(** [role] of a chat document. *)
Definition role_of (d : JsValue) : JsValue := get_opt d "role".

(** The text consists of white space only (or is empty). *)
Fixpoint all_space (s : string) : bool :=
  match s with
  | EmptyString => true
  | String c s' => is_space c && all_space s'
  end.

(** The text [handleSend] works on: its argument when that is a string,
    the input box otherwise. *)
Definition chat_message (v : Chat.View) (messageText : option string) : string :=
  match messageText with
  | Some text => text
  | None => Chat.currentMessage v
  end.

(** The conditions under which [handleSend] returns at once. *)
Definition chat_blocked (p : Services) (v : Chat.View) (message : string) : bool :=
  all_space message || Chat.isTyping v || negb (db p)
  || negb (present (userId p)) || negb (present (appId p)).

(** The request of a chat turn. *)
Definition chat_request (w : World) (v : Chat.View) (message : string) : RequestInit :=
  post_json w (Chat.payload v (trim message)).

(** A sample world: every write succeeds, bodies parse to [null]. *)
Definition quiet (t : Transport) : World :=
  {| apiKey := "";
     transport := t;
     response_json := fun _ => inr VNull;
     JSON_parse := fun _ => inr VNull;
     JSON_stringify := fun _ => "{}";
     number_text := fun _ => "30";
     setDoc_outcome := fun _ => None;
     auto_id := fun k => string_of_Z (Z.of_nat k) |}.

(** A body of the shape the API answers with. *)
Definition gemini_answer (text : string) : JsValue :=
  VObj [("candidates",
         VArr [VObj [("content",
                      VObj [("parts", VArr [VObj [("text", VStr text)]])])]])].

(** A sample world whose bodies parse to [result], whose [JSON.parse]
    yields [parsed], and whose writes follow [write]. *)
Definition answering (t : Transport) (result parsed : Error + JsValue)
    (write : nat -> option Error) : World :=
  {| apiKey := "k";
     transport := t;
     response_json := fun _ => result;
     JSON_parse := fun _ => parsed;
     JSON_stringify := fun _ => "{}";
     number_text := fun _ => "30";
     setDoc_outcome := write;
     auto_id := fun k => string_of_Z (Z.of_nat k) |}.

Definition unavailable : Error :=
  {| name := "FirebaseError"; message := "unavailable" |}.

(** Writes that all succeed, and writes of which the first fails. *)
Definition writes_succeed : nat -> option Error := fun _ => None.

Definition first_write_fails : nat -> option Error :=
  fun k => match k with O => Some unavailable | S _ => None end.

Definition sample_chat : Chat.View :=
  {| Chat.chatHistory :=
       [[("text", VStr "What is hypertension?"); ("role", VStr "user")];
        [("text", VStr "High blood pressure."); ("role", VStr "ai")];
        [("text", VStr Chat.error_text); ("role", VStr "ai_error")]];
     Chat.currentMessage := "  How can I relieve a headache? ";
     Chat.isTyping := false |}.

Definition sample_profile : Prediction.View :=
  {| Prediction.selectedSymptoms := ["Fever"; "Cough"];
     Prediction.age := 30%float;
     Prediction.gender := "Male" |}.

Definition sample_prediction : JsValue :=
  VObj [("emergency_flag", VBool false); ("predictions", VArr [])].

Definition sample_config : JsValue :=
  VObj [("apiKey", VStr "AIza"); ("projectId", VStr "vaidya"); ("appId", VStr "1:2:web:3")].

Definition sdk_works : string -> option Error := fun _ => None.

Definition sdk_rejects_config : string -> option Error :=
  fun call =>
    if String.eqb call "initializeApp"
    then Some {| name := "FirebaseError"; message := "invalid-api-key" |}
    else None.

(** A world in which the configuration text parses to [config]. *)
Definition configured (config : Error + JsValue) : World :=
  answering (always (Resolved response_ok)) (inr VNull) config writes_succeed.

Definition signed_in : Services :=
  {| db := true; userId := Some "u1"; appId := Some "app" |}.

(** ** One pass through the loop body *)

Lemma iteration_ok t i s r :
  t (fetched s) = Resolved r -> ok r = true ->
  DocBotPage.iteration t i s = (Normal (Return r), after_fetch s).
Proof.
  intros Ht Hok.
  unfold DocBotPage.iteration, try_catch, bind, read, fetch.
  rewrite Ht, Hok. reflexivity.
Qed.

Lemma iteration_failed_last t i s :
  failed (t (fetched s)) = true -> i = retries (frame s) - 1 ->
  DocBotPage.iteration t i s = (Thrown (reason (t (fetched s))), after_fetch s).
Proof.
  intros Hf Hi.
  unfold DocBotPage.iteration, try_catch, bind, read, fetch, throw.
  assert (Hlt : (i <? retries (frame s) - 1) = false) by (apply Z.ltb_ge; lia).
  assert (Heq : (i =? retries (frame s) - 1) = true) by (apply Z.eqb_eq; lia).
  destruct (t (fetched s)) as [r | e]; cbn in Hf; cbn [reason].
  - apply negb_true_iff in Hf. rewrite Hf. cbn [frame].
    rewrite Hlt, andb_false_r. cbn [frame]. rewrite Heq.
    reflexivity.
  - cbn [frame]. rewrite Heq. reflexivity.
Qed.

Lemma iteration_failed_retry t i s :
  failed (t (fetched s)) = true -> i <> retries (frame s) - 1 ->
  DocBotPage.iteration t i s = (Normal Continue, after_backoff (after_fetch s)).
Proof.
  intros Hf Hi.
  unfold DocBotPage.iteration, try_catch, bind, read, fetch, throw, sleep, assign_delay, ret.
  apply Z.eqb_neq in Hi.
  destruct (t (fetched s)) as [r | e]; cbn in Hf.
  - apply negb_true_iff in Hf. rewrite Hf. cbn [frame].
    destruct ((status r =? 429) && (i <? retries (frame s) - 1)).
    + reflexivity.
    + cbn [frame]. rewrite Hi. reflexivity.
  - cbn [frame]. rewrite Hi. reflexivity.
Qed.

(** ** The loop, one test at a time *)

Lemma loop_exit t fuel i s :
  retries (frame s) <= i ->
  DocBotPage.loop t (S fuel) i s = (Normal Undefined, s).
Proof.
  intros Hi. cbn [DocBotPage.loop]. unfold bind at 1, read.
  replace (i <? retries (frame s)) with false by (symmetry; apply Z.ltb_ge; lia).
  reflexivity.
Qed.

Lemma loop_ok t fuel i s r :
  i < retries (frame s) ->
  t (fetched s) = Resolved r -> ok r = true ->
  DocBotPage.loop t (S fuel) i s = (Normal (Value r), after_fetch s).
Proof.
  intros Hi Ht Hok. cbn [DocBotPage.loop]. unfold bind, read.
  replace (i <? retries (frame s)) with true by (symmetry; apply Z.ltb_lt; lia).
  rewrite (iteration_ok _ _ _ _ Ht Hok). reflexivity.
Qed.

Lemma loop_last t fuel i s :
  i = retries (frame s) - 1 ->
  failed (t (fetched s)) = true ->
  DocBotPage.loop t (S fuel) i s = (Thrown (reason (t (fetched s))), after_fetch s).
Proof.
  intros Hi Hf. cbn [DocBotPage.loop]. unfold bind, read.
  replace (i <? retries (frame s)) with true by (symmetry; apply Z.ltb_lt; lia).
  rewrite (iteration_failed_last _ _ _ Hf Hi). reflexivity.
Qed.

Lemma loop_retry t fuel i s :
  i < retries (frame s) - 1 ->
  failed (t (fetched s)) = true ->
  DocBotPage.loop t (S fuel) i s =
  DocBotPage.loop t fuel (i + 1) (after_backoff (after_fetch s)).
Proof.
  intros Hi Hf. cbn [DocBotPage.loop]. unfold bind, read.
  replace (i <? retries (frame s)) with true by (symmetry; apply Z.ltb_lt; lia).
  rewrite (iteration_failed_retry _ _ _ Hf) by lia. reflexivity.
Qed.

(** The second copy is the first one, letter for letter. *)
Lemma loops_agree t fuel i s :
  PredictionPage.loop t fuel i s = DocBotPage.loop t fuel i s.
Proof. reflexivity. Qed.

Lemma copies_agree t u o n d :
  PredictionPage.fetchWithBackoff t u o n d = DocBotPage.fetchWithBackoff t u o n d.
Proof. apply loops_agree. Qed.

Lemma at_site site t u o n d :
  fetchWithBackoffAt site t u o n d = DocBotPage.fetchWithBackoff t u o n d.
Proof. destruct site; [reflexivity | apply copies_agree]. Qed.

(** ** A run of failed attempts *)

Lemma after_failures_frame k s :
  url (frame (after_failures k s)) = url (frame s) /\
  options (frame (after_failures k s)) = options (frame s) /\
  retries (frame (after_failures k s)) = retries (frame s) /\
  delay (frame (after_failures k s)) = delay (frame s) * 2 ^ Z.of_nat k.
Proof.
  revert s. induction k as [| k IH]; intros s.
  - cbn. repeat split. lia.
  - cbn [after_failures].
    destruct (IH (after_backoff (after_fetch s))) as (Hu & Ho & Hn & Hd).
    rewrite Hu, Ho, Hn, Hd. cbn [after_backoff after_fetch frame url options retries delay].
    repeat split.
    rewrite Nat2Z.inj_succ, Z.pow_succ_r by lia. lia.
Qed.

Lemma after_failures_fetched k s :
  fetched (after_failures k s) = (fetched s + k)%nat.
Proof.
  revert s. induction k as [| k IH]; intros s; cbn [after_failures].
  - lia.
  - rewrite IH. cbn. lia.
Qed.

Lemma after_failures_log k s :
  log (after_failures k s) =
  log s ++ rounds (url (frame s)) (options (frame s)) (delay (frame s)) k.
Proof.
  revert s. induction k as [| k IH]; intros s; cbn [after_failures rounds].
  - now rewrite app_nil_r.
  - rewrite IH. cbn [after_backoff after_fetch frame log url options delay].
    now rewrite <- !app_assoc.
Qed.

Lemma waits_app l1 l2 : waits (l1 ++ l2) = waits l1 ++ waits l2.
Proof.
  induction l1 as [| [u o | ms] l1 IH]; cbn; [reflexivity | assumption |].
  now rewrite IH.
Qed.

Lemma attempts_app l1 l2 : attempts (l1 ++ l2) = (attempts l1 + attempts l2)%nat.
Proof.
  induction l1 as [| [u o | ms] l1 IH]; cbn; [reflexivity | | assumption].
  now rewrite IH.
Qed.

Lemma waits_rounds u o d k : waits (rounds u o d k) = doubling d k.
Proof.
  revert d. induction k as [| k IH]; intros d; cbn; [reflexivity |].
  now rewrite IH.
Qed.

Lemma attempts_rounds u o d k : attempts (rounds u o d k) = k.
Proof.
  revert d. induction k as [| k IH]; intros d; cbn; [reflexivity |].
  now rewrite IH.
Qed.

Lemma doubling_nth d k j :
  (j < k)%nat -> nth_error (doubling d k) j = Some (d * 2 ^ Z.of_nat j).
Proof.
  revert d j. induction k as [| k IH]; intros d j Hj; [lia |].
  destruct j as [| j]; cbn [doubling nth_error].
  - f_equal. cbn. lia.
  - rewrite IH by lia. f_equal.
    rewrite Nat2Z.inj_succ, Z.pow_succ_r by lia. lia.
Qed.

(** [k] failed attempts that leave room for one more are all retried. *)
Lemma loop_failures t k :
  forall fuel i s,
    (forall j, (j < k)%nat -> failed (t (fetched s + j)%nat) = true) ->
    i + Z.of_nat k < retries (frame s) ->
    DocBotPage.loop t (k + fuel) i s =
    DocBotPage.loop t fuel (i + Z.of_nat k) (after_failures k s).
Proof.
  induction k as [| k IH]; intros fuel i s Hfail Hroom.
  - cbn. now rewrite Z.add_0_r.
  - cbn [Nat.add after_failures].
    rewrite loop_retry.
    + rewrite IH.
      * f_equal. lia.
      * intros j Hj. cbn [after_backoff after_fetch fetched].
        replace (S (fetched s) + j)%nat with (fetched s + S j)%nat by lia.
        apply Hfail. lia.
      * cbn [after_backoff after_fetch frame retries]. lia.
    + lia.
    + rewrite <- (Nat.add_0_r (fetched s)). apply Hfail. lia.
Qed.

(** Every run from inside the budget: some number [k] of failed attempts
    is retried, and attempt [k+1] ends the call, by a response with [ok]
    set or by a failure in the last iteration. *)
Lemma loop_run t :
  forall fuel i s,
    i < retries (frame s) ->
    retries (frame s) - i <= Z.of_nat fuel ->
    exists k : nat,
      i + Z.of_nat k < retries (frame s) /\
      (forall j, (j < k)%nat -> failed (t (fetched s + j)%nat) = true) /\
      ((exists r, t (fetched s + k)%nat = Resolved r /\ ok r = true /\
                  DocBotPage.loop t fuel i s =
                  (Normal (Value r), after_fetch (after_failures k s)))
       \/
       (failed (t (fetched s + k)%nat) = true /\
        i + Z.of_nat k = retries (frame s) - 1 /\
        DocBotPage.loop t fuel i s =
        (Thrown (reason (t (fetched s + k)%nat)),
         after_fetch (after_failures k s)))).
Proof.
  induction fuel as [| fuel IH]; intros i s Hi Hfuel; [lia |].
  destruct (failed (t (fetched s))) eqn:Hf.
  - destruct (Z.eq_dec i (retries (frame s) - 1)) as [Hlast | Hmore].
    + exists O. rewrite Nat.add_0_r. cbn [after_failures].
      split; [lia |]. split; [intros j Hj; lia |].
      right. split; [assumption |]. split; [lia |].
      now apply loop_last.
    + rewrite loop_retry by (assumption || lia).
      destruct (IH (i + 1) (after_backoff (after_fetch s))) as (k & Hk & Hfail & Hend).
      * cbn [after_backoff after_fetch frame retries]. lia.
      * cbn [after_backoff after_fetch frame retries]. lia.
      * cbn [after_backoff after_fetch frame retries fetched] in Hk, Hfail, Hend.
        exists (S k).
        replace (fetched s + S k)%nat with (S (fetched s) + k)%nat by lia.
        split; [lia |]. split.
        -- intros [| j] Hj.
           ++ now rewrite Nat.add_0_r.
           ++ replace (fetched s + S j)%nat with (S (fetched s) + j)%nat by lia.
              apply Hfail. lia.
        -- cbn [after_failures].
           destruct Hend as [(r & Hr & Hok & Hrun) | (Hlastf & Hlast & Hrun)].
           ++ left. exists r. repeat split; assumption.
           ++ right. repeat split; [assumption | lia | assumption].
  - exists O. rewrite Nat.add_0_r. cbn [after_failures].
    split; [lia |]. split; [intros j Hj; lia |].
    left. destruct (t (fetched s)) as [r | e] eqn:Ht; cbn in Hf; [| discriminate].
    apply negb_false_iff in Hf.
    exists r. repeat split; try assumption.
    now apply loop_ok.
Qed.

(** ** Whole calls *)

Lemma state_ext s1 s2 :
  frame s1 = frame s2 -> fetched s1 = fetched s2 -> log s1 = log s2 -> s1 = s2.
Proof. destruct s1, s2; cbn; intros; subst; reflexivity. Qed.

Lemma frame_ext f1 f2 :
  url f1 = url f2 -> options f1 = options f2 ->
  retries f1 = retries f2 -> delay f1 = delay f2 -> f1 = f2.
Proof. destruct f1, f2; cbn; intros; subst; reflexivity. Qed.

Lemma finished_after_failures u o n d k :
  after_fetch (after_failures k (initial u o n d)) =
  finished u o (default 3 n) (default 1000 d) k.
Proof.
  destruct (after_failures_frame k (initial u o n d)) as (Hu & Ho & Hn & Hd).
  apply state_ext; cbn [after_fetch finished frame fetched log].
  - apply frame_ext; cbn [url options retries delay]; assumption.
  - rewrite after_failures_fetched. reflexivity.
  - rewrite after_failures_log, Hu, Ho. reflexivity.
Qed.

(** Fuel never runs out: a call with a non-positive budget leaves the loop
    at once, any other call falls under [loop_run]. *)
Lemma run_no_budget t u o n d :
  default 3 n <= 0 ->
  DocBotPage.fetchWithBackoff t u o n d = (Normal Undefined, initial u o n d).
Proof.
  intros Hn. unfold DocBotPage.fetchWithBackoff.
  apply loop_exit. cbn. lia.
Qed.

Lemma run_cases t u o n d :
  1 <= default 3 n ->
  exists k : nat,
    Z.of_nat k < default 3 n /\
    (forall j, (j < k)%nat -> failed (t j) = true) /\
    ((exists r, t k = Resolved r /\ ok r = true /\
                DocBotPage.fetchWithBackoff t u o n d =
                (Normal (Value r), finished u o (default 3 n) (default 1000 d) k))
     \/
     (failed (t k) = true /\ Z.of_nat k = default 3 n - 1 /\
      DocBotPage.fetchWithBackoff t u o n d =
      (Thrown (reason (t k)), finished u o (default 3 n) (default 1000 d) k))).
Proof.
  intros Hn. unfold DocBotPage.fetchWithBackoff.
  destruct (loop_run t (S (Z.to_nat (default 3 n))) 0 (initial u o n d))
    as (k & Hk & Hfail & Hend).
  - cbn. lia.
  - cbn [initial frame retries]. lia.
  - cbn [initial frame retries fetched Nat.add] in Hk, Hfail, Hend.
    rewrite finished_after_failures in Hend.
    exists k. split; [lia |]. split; [exact Hfail |].
    destruct Hend as [(r & Hr & Hok & Hrun) | (Hf & Hlast & Hrun)].
    + left. exists r. repeat split; assumption.
    + right. repeat split; [assumption | lia | assumption].
Qed.

(** [k] failed attempts inside the budget, then a response with [ok] set. *)
Lemma run_success t u o n d k r :
  Z.of_nat k < default 3 n ->
  (forall j, (j < k)%nat -> failed (t j) = true) ->
  t k = Resolved r -> ok r = true ->
  DocBotPage.fetchWithBackoff t u o n d =
  (Normal (Value r), finished u o (default 3 n) (default 1000 d) k).
Proof.
  intros Hk Hfail Hr Hok. unfold DocBotPage.fetchWithBackoff.
  replace (S (Z.to_nat (default 3 n)))
    with (k + S (Z.to_nat (default 3 n) - k))%nat by lia.
  rewrite loop_failures.
  - rewrite <- finished_after_failures. apply loop_ok.
    + destruct (after_failures_frame k (initial u o n d)) as (_ & _ & Hn & _).
      rewrite Hn. cbn. lia.
    + rewrite after_failures_fetched. exact Hr.
    + exact Hok.
  - exact Hfail.
  - cbn. lia.
Qed.

(** A budget of [k+1] attempts, all of them failed. *)
Lemma run_exhausted t u o n d k :
  Z.of_nat k = default 3 n - 1 ->
  (forall j, (j <= k)%nat -> failed (t j) = true) ->
  DocBotPage.fetchWithBackoff t u o n d =
  (Thrown (reason (t k)), finished u o (default 3 n) (default 1000 d) k).
Proof.
  intros Hk Hfail. unfold DocBotPage.fetchWithBackoff.
  replace (S (Z.to_nat (default 3 n)))
    with (k + S (Z.to_nat (default 3 n) - k))%nat by lia.
  rewrite loop_failures.
  - rewrite <- finished_after_failures.
    replace (t k) with (t (fetched (after_failures k (initial u o n d))))
      by (now rewrite after_failures_fetched).
    apply loop_last.
    + destruct (after_failures_frame k (initial u o n d)) as (_ & _ & Hn & _).
      rewrite Hn. cbn. lia.
    + rewrite after_failures_fetched. apply Hfail. cbn. lia.
  - intros j Hj. apply Hfail. cbn. lia.
  - cbn. lia.
Qed.

Lemma retryable_failed o : classify o = RetryableFailure -> failed o = true.
Proof.
  destruct o as [r | e]; cbn; [| reflexivity].
  destruct (ok r); [discriminate | reflexivity].
Qed.

Lemma finished_waits u o n d k : waits (log (finished u o n d k)) = doubling d k.
Proof.
  cbn [finished log]. rewrite waits_app, waits_rounds. cbn. apply app_nil_r.
Qed.

Lemma finished_attempts u o n d k : attempts (log (finished u o n d k)) = S k.
Proof.
  cbn [finished log]. rewrite attempts_app, attempts_rounds. cbn. lia.
Qed.

(** How any call ends: outside the budget with [undefined], or in a
    [finished] state after some number of retried attempts. *)
Lemma run_ends t u o n d :
  (default 3 n <= 0 /\
   DocBotPage.fetchWithBackoff t u o n d = (Normal Undefined, initial u o n d))
  \/
  (exists k c,
     Z.of_nat k < default 3 n /\
     DocBotPage.fetchWithBackoff t u o n d =
     (c, finished u o (default 3 n) (default 1000 d) k)).
Proof.
  destruct (Z_le_gt_dec (default 3 n) 0) as [Hn | Hn].
  - left. split; [assumption | now apply run_no_budget].
  - right. destruct (run_cases t u o n d) as (k & Hk & _ & Hend); [lia |].
    destruct Hend as [(r & _ & _ & Hrun) | (_ & _ & Hrun)];
      exists k; eexists; (split; [exact Hk | exact Hrun]).
Qed.

(** Shape of the effects of any call. *)
Lemma run_shape t u o n d :
  let run := DocBotPage.fetchWithBackoff t u o n d in
  waits (log (snd run)) = doubling (default 1000 d) (fetched (snd run) - 1) /\
  attempts (log (snd run)) = fetched (snd run) /\
  url (frame (snd run)) = u /\
  options (frame (snd run)) = o /\
  retries (frame (snd run)) = default 3 n.
Proof.
  cbv zeta.
  destruct (run_ends t u o n d) as [(_ & Hrun) | (k & c & _ & Hrun)]; rewrite Hrun.
  - cbn. repeat split.
  - cbn [snd]. rewrite finished_waits, finished_attempts.
    cbn [finished fetched frame url options retries].
    rewrite Nat.sub_succ, Nat.sub_0_r. repeat split.
Qed.

(** The fuel handed to the loop is always enough. *)
Lemma fetchWithBackoff_total t u o n d :
  fst (DocBotPage.fetchWithBackoff t u o n d) <> OutOfFuel.
Proof.
  destruct (Z_le_gt_dec (default 3 n) 0) as [Hn | Hn].
  - rewrite run_no_budget by assumption. discriminate.
  - destruct (run_cases t u o n d) as (k & _ & _ & Hend); [lia |].
    destruct Hend as [(r & _ & _ & Hrun) | (_ & _ & Hrun)];
      rewrite Hrun; discriminate.
Qed.

(** With room for a second attempt, a first response whose status is
    neither a success nor 429 is followed by a wait and a second request:
    the [throw] of the status branch is caught by the retrying handler. *)
Lemma fatal_first_attempt_is_retried t u o n d :
  2 <= default 3 n ->
  classify (t 0%nat) = FatalFailure ->
  let run := DocBotPage.fetchWithBackoff t u o n d in
  (2 <= fetched (snd run))%nat /\
  exists rest,
    log (snd run) =
    Fetch u o :: SetTimeout (default 1000 d) :: Fetch u o :: rest.
Proof.
  intros Hn Hfatal. cbv zeta.
  destruct (run_cases t u o n d) as (k & Hk & Hfail & Hend); [lia |].
  assert (Hk1 : (1 <= k)%nat).
  { destruct k as [| k]; [| lia]. exfalso.
    destruct Hend as [(r & Hr & Hok & _) | (_ & Hlast & _)].
    - rewrite Hr in Hfatal. cbn in Hfatal. rewrite Hok in Hfatal. discriminate.
    - cbn in Hlast. lia. }
  assert (Hrun : snd (DocBotPage.fetchWithBackoff t u o n d) =
                 finished u o (default 3 n) (default 1000 d) k)
    by (destruct Hend as [(r & _ & _ & Hrun) | (_ & _ & Hrun)]; now rewrite Hrun).
  rewrite Hrun. cbn [finished fetched log]. split; [lia |].
  destruct k as [| [| k]]; [lia | |]; cbn [rounds app]; eexists; reflexivity.
Qed.

(** ** The claims *)

(** C1 (the code departs from it).  The specification asks that a response
    whose status is neither a success nor 429 on the first attempt raises at
    once, after exactly one attempt and without a wait.  Evaluated on the
    default arguments against a server that answers 500, either copy waits
    1000 ms, retries, waits 2000 ms, retries again, and raises only after the
    third attempt: the [throw] for such a status sits inside the [try] and is
    caught by the handler that retries. *)
Theorem fatal_status_is_retried site :
  let run := fetchWithBackoffAt site (always (Resolved response_500))
               GEMINI_API_URL post None None in
  classify (Resolved response_500) = FatalFailure /\
  fst run = Thrown (new_Error "API returned status 500") /\
  fetched (snd run) = 3%nat /\
  log (snd run) =
    [Fetch GEMINI_API_URL post; SetTimeout 1000;
     Fetch GEMINI_API_URL post; SetTimeout 2000;
     Fetch GEMINI_API_URL post].
Proof. destruct site; vm_compute; repeat split. Qed.

(** C2.  With a budget of [n >= 1] attempts and a transport that fails
    transiently (a rejected [fetch] or a 429 response) on every attempt, the
    call issues exactly [n] requests, waits after each but the last, and then
    raises the failure reason of attempt [n]; the log ends with the n-th
    [fetch], so there is no request [n+1]. *)
Theorem transient_failures_use_whole_budget site t u o n d :
  1 <= default 3 n ->
  (forall j, Z.of_nat j < default 3 n -> classify (t j) = RetryableFailure) ->
  let run := fetchWithBackoffAt site t u o n d in
  let last := Z.to_nat (default 3 n - 1) in
  fst run = Thrown (reason (t last)) /\
  Z.of_nat (fetched (snd run)) = default 3 n /\
  Z.of_nat (attempts (log (snd run))) = default 3 n /\
  log (snd run) = rounds u o (default 1000 d) last ++ [Fetch u o].
Proof.
  intros Hn Htransient run last. subst run. rewrite at_site.
  rewrite (run_exhausted t u o n d last).
  - cbn [fst snd]. rewrite finished_attempts.
    cbn [finished fetched log]. subst last. repeat split; lia.
  - subst last. lia.
  - intros j Hj. apply retryable_failed, Htransient. subst last. lia.
Qed.


(** C4.  With a budget of [n] attempts and [1 <= k <= n], if the first
    [k-1] attempts fail transiently and attempt [k] yields a response with
    [ok] set, the call returns that very response; [k] requests were
    issued, and the log ends with the k-th [fetch]: nothing is requested or
    awaited after it. *)
Theorem success_on_attempt_k_is_returned site t u o n d (k : nat) r :
  (1 <= k)%nat ->
  Z.of_nat k <= default 3 n ->
  (forall j, (j < k - 1)%nat -> classify (t j) = RetryableFailure) ->
  t (k - 1)%nat = Resolved r ->
  ok r = true ->
  let run := fetchWithBackoffAt site t u o n d in
  fst run = Normal (Value r) /\
  fetched (snd run) = k /\
  attempts (log (snd run)) = k /\
  log (snd run) = rounds u o (default 1000 d) (k - 1) ++ [Fetch u o].
Proof.
  intros Hk1 Hkn Htransient Hr Hok run. subst run. rewrite at_site.
  rewrite (run_success t u o n d (k - 1) r).
  - cbn [fst snd]. rewrite finished_attempts.
    cbn [finished fetched log]. repeat split; lia.
  - lia.
  - intros j Hj. now apply retryable_failed, Htransient.
  - exact Hr.
  - exact Hok.
Qed.

(** C5.  The end-to-end scenario: budget 3, first delay 1000 ms, responses
    429, 429, 200.  The call waits 1000 ms after the first attempt and
    2000 ms after the second, issues three requests and returns the 200
    response.  In general, for any call of either copy, the wait that
    precedes retry [j] is the first delay times [2^(j-1)]. *)
Theorem backoff_delays_double site :
  (let run := fetchWithBackoffAt site rate_limited_twice
                GEMINI_API_URL post (Some 3) (Some 1000) in
   fst run = Normal (Value response_ok) /\
   fetched (snd run) = 3%nat /\
   waits (log (snd run)) = [1000; 2000] /\
   log (snd run) =
     [Fetch GEMINI_API_URL post; SetTimeout 1000;
      Fetch GEMINI_API_URL post; SetTimeout 2000;
      Fetch GEMINI_API_URL post]) /\
  (forall t u o n d (j : nat),
     let run := fetchWithBackoffAt site t u o n d in
     (1 <= j < fetched (snd run))%nat ->
     nth_error (waits (log (snd run))) (j - 1) =
     Some (default 1000 d * 2 ^ Z.of_nat (j - 1))).
Proof.
  split.
  - destruct site; vm_compute; repeat split.
  - intros t u o n d j run Hj. subst run. rewrite at_site in Hj |- *.
    destruct (run_shape t u o n d) as (Hw & _). rewrite Hw.
    apply doubling_nth. lia.
Qed.

(** C6.  With a budget of one attempt the call issues a single request and
    never waits, whatever the transport does; if that attempt fails in any
    way (a 429, any other status without [ok], a rejected [fetch]) the call
    raises the reason of that failure. *)
Theorem single_attempt_budget_never_retries site t u o d :
  let run := fetchWithBackoffAt site t u o (Some 1) d in
  log (snd run) = [Fetch u o] /\
  fetched (snd run) = 1%nat /\
  waits (log (snd run)) = [] /\
  (failed (t 0%nat) = true -> fst run = Thrown (reason (t 0%nat))).
Proof.
  cbv zeta. rewrite at_site.
  destruct (run_cases t u o (Some 1) d) as (k & Hk & _ & Hend); [cbn; lia |].
  cbn [default] in Hk. assert (k = 0%nat) by lia. subst k.
  destruct Hend as [(r & Hr & Hok & Hrun) | (_ & _ & Hrun)]; rewrite Hrun;
    cbn [fst snd finished fetched log rounds app waits]; repeat split.
  rewrite Hr. cbn. rewrite Hok. discriminate.
Qed.

(** C7, amended.  An error raised by the call is the failure reason of the
    last attempt performed: the rejection of that [fetch], or an [Error]
    whose message is the text "API returned status " followed by the status
    of that response.  The error has no field for the number of
    attempts. *)
Theorem raised_error_is_last_failure_reason site t u o n d e :
  let run := fetchWithBackoffAt site t u o n d in
  fst run = Thrown e ->
  let last := (fetched (snd run) - 1)%nat in
  failed (t last) = true /\
  e = reason (t last) /\
  (forall r, t last = Resolved r ->
             message e = ("API returned status " ++ string_of_Z (status r))%string) /\
  (forall e', t last = Rejected e' -> e = e').
Proof.
  cbv zeta. rewrite at_site. intros Hraise.
  destruct (Z_le_gt_dec (default 3 n) 0) as [Hn | Hn].
  - rewrite run_no_budget in Hraise by assumption. discriminate.
  - destruct (run_cases t u o n d) as (k & Hk & _ & Hend); [lia |].
    destruct Hend as [(r & _ & _ & Hrun) | (Hf & Hlast & Hrun)];
      rewrite Hrun in Hraise |- *; cbn [fst snd finished fetched] in Hraise |- *.
    + discriminate.
    + rewrite Nat.sub_succ, Nat.sub_0_r.
      injection Hraise as <-.
      split; [assumption |]. split; [reflexivity |].
      split.
      * intros r Hr. rewrite Hr. reflexivity.
      * intros e' He'. rewrite He'. reflexivity.
Qed.

(** C8.  The copy in PredictionPage and the copy in DocBotPage agree on
    every transport and all arguments: same completion (returned response,
    raised error or [undefined]), same number of requests, same log of
    requests and waits, same final bindings. *)
Theorem copies_are_extensionally_equal t u o n d :
  PredictionPage.fetchWithBackoff t u o n d =
  DocBotPage.fetchWithBackoff t u o n d.
Proof.
  unfold PredictionPage.fetchWithBackoff, DocBotPage.fetchWithBackoff.
  generalize (S (Z.to_nat (default 3 n))) 0 (initial u o n d).
  intros fuel. induction fuel as [| fuel IH]; intros i s.
  - reflexivity.
  - cbn [PredictionPage.loop DocBotPage.loop]. unfold bind, read.
    destruct (i <? retries (frame s)); [| reflexivity].
    change (PredictionPage.iteration t i s) with (DocBotPage.iteration t i s).
    destruct (DocBotPage.iteration t i s) as [[[r |] | e |] s']; [reflexivity | | reflexivity ..].
    apply IH.
Qed.

(** A pass through the loop body assigns to [delay] only. *)
Lemma iteration_keeps_request_and_budget t i s :
  let s' := snd (DocBotPage.iteration t i s) in
  url (frame s') = url (frame s) /\
  options (frame s') = options (frame s) /\
  retries (frame s') = retries (frame s).
Proof.
  cbv zeta.
  unfold DocBotPage.iteration, try_catch, bind, read, fetch, throw, sleep,
    assign_delay, ret.
  destruct (t (fetched s)) as [r | e].
  - destruct (ok r); cbn [frame snd]; [repeat split |].
    destruct ((status r =? 429) && (i <? retries (frame s) - 1));
      cbn [frame snd]; [repeat split |].
    destruct (i =? retries (frame s) - 1); repeat split.
  - cbn [frame snd]. destruct (i =? retries (frame s) - 1); repeat split.
Qed.

(** C9, amended.  A call that omits [retries] and [delay] runs as the call
    with budget 3 and first delay 1000 ms.  The budget and the request are
    never assigned: no pass through the loop body changes them and the call
    ends with the values it started with.  Each wait is twice the one
    before it: the factor 2 is a constant of the helper, which has no
    parameter for it. *)
Theorem defaults_and_fixed_doubling site t u o :
  fetchWithBackoffAt site t u o None None =
  fetchWithBackoffAt site t u o (Some 3) (Some 1000) /\
  frame (initial u o None None) =
  {| url := u; options := o; retries := 3; delay := 1000 |} /\
  (forall i s,
     retries (frame (snd (DocBotPage.iteration t i s))) = retries (frame s) /\
     retries (frame (snd (PredictionPage.iteration t i s))) = retries (frame s)) /\
  (forall n d,
     let run := fetchWithBackoffAt site t u o n d in
     retries (frame (snd run)) = default 3 n /\
     url (frame (snd run)) = u /\
     options (frame (snd run)) = o /\
     waits (log (snd run)) = doubling (default 1000 d) (fetched (snd run) - 1)).
Proof.
  split; [destruct site; reflexivity |].
  split; [reflexivity |].
  split.
  - intros i s.
    change (PredictionPage.iteration t i s) with (DocBotPage.iteration t i s).
    destruct (iteration_keeps_request_and_budget t i s) as (_ & _ & Hn).
    split; exact Hn.
  - intros n d. cbv zeta. rewrite at_site.
    destruct (run_shape t u o n d) as (Hw & _ & Hu & Ho & Hn).
    repeat split; assumption.
Qed.

(** C10.  With a budget [retries <= 0] passed by the caller, the call
    issues no request and sets no timer, and completes normally with
    [undefined]: neither a response nor an error. *)
Theorem non_positive_budget_returns_undefined site t u o n d :
  n <= 0 ->
  let run := fetchWithBackoffAt site t u o (Some n) d in
  fst run = Normal Undefined /\
  fetched (snd run) = 0%nat /\
  log (snd run) = [] /\
  snd run = initial u o (Some n) d.
Proof.
  intros Hn. cbv zeta. rewrite at_site.
  rewrite run_no_budget by exact Hn.
  repeat split.
Qed.

(** ** Where the specification and the code part *)

(** C7 as written fails: the raised error does not determine the number of
    attempts.  Against a server that always answers 429, budgets 1 and 2
    raise the same error after one and after two requests. *)
Lemma raised_error_has_no_attempt_count :
  ~ (exists count : Error -> nat,
       forall site t u o n d e,
         fst (fetchWithBackoffAt site t u o n d) = Thrown e ->
         count e = fetched (snd (fetchWithBackoffAt site t u o n d))).
Proof.
  intros [count Hcount].
  pose proof (Hcount InDocBotPage (always (Resolved response_429))
                GEMINI_API_URL post (Some 1) None
                (new_Error "API returned status 429") eq_refl) as H1.
  pose proof (Hcount InDocBotPage (always (Resolved response_429))
                GEMINI_API_URL post (Some 2) None
                (new_Error "API returned status 429") eq_refl) as H2.
  rewrite H1 in H2. vm_compute in H2. discriminate.
Qed.

(** C9 as written fails in its last clause: no choice of arguments makes
    the delays grow by a factor other than 2.  In the end-to-end scenario
    the second wait is never three times a positive first wait. *)
Lemma multiplier_is_not_configurable :
  ~ (forall m : Z, 1 < m ->
       exists site n d w,
         0 < w /\
         waits (log (snd (fetchWithBackoffAt site rate_limited_twice
                            GEMINI_API_URL post n d))) = [w; w * m]).
Proof.
  intros Hconf.
  destruct (Hconf 3 ltac:(lia)) as (site & n & d & w & Hw & Hwaits).
  rewrite at_site in Hwaits.
  destruct (run_shape rate_limited_twice GEMINI_API_URL post n d) as (Hshape & _).
  rewrite Hshape in Hwaits.
  destruct (fetched _ - 1)%nat as [| [| [| k]]]; cbn in Hwaits;
    try discriminate.
  injection Hwaits as H1 H2. lia.
Qed.

(** ** The theorems at concrete calls *)

(** C2 at budget 3: one 429, then the network stays down. *)
Lemma transient_failures_use_whole_budget_witness :
  let t := script [Resolved response_429] (Rejected network_down) in
  let run := fetchWithBackoffAt InPredictionPage t GEMINI_API_URL post (Some 3) None in
  1 <= default 3 (Some 3) /\
  (forall j, Z.of_nat j < default 3 (Some 3) -> classify (t j) = RetryableFailure) /\
  fst run = Thrown network_down /\
  Z.of_nat (fetched (snd run)) = 3 /\
  Z.of_nat (attempts (log (snd run))) = 3 /\
  log (snd run) =
    [Fetch GEMINI_API_URL post; SetTimeout 1000;
     Fetch GEMINI_API_URL post; SetTimeout 2000;
     Fetch GEMINI_API_URL post].
Proof.
  cbv zeta.
  assert (Hn : 1 <= default 3 (Some 3)) by (simpl; lia).
  assert (Ht : forall j, Z.of_nat j < default 3 (Some 3) ->
                 classify (script [Resolved response_429] (Rejected network_down) j)
                 = RetryableFailure)
    by (intros [| j] _; reflexivity).
  split; [exact Hn |]. split; [exact Ht |].
  exact (transient_failures_use_whole_budget InPredictionPage
           (script [Resolved response_429] (Rejected network_down))
           GEMINI_API_URL post (Some 3) None Hn Ht).
Defined.


(** C4 on the end-to-end scenario: success on attempt 3 of 3. *)
Lemma success_on_attempt_k_is_returned_witness :
  let run := fetchWithBackoffAt InDocBotPage rate_limited_twice
               GEMINI_API_URL post None None in
  (1 <= 3)%nat /\
  Z.of_nat 3 <= default 3 None /\
  (forall j, (j < 3 - 1)%nat -> classify (rate_limited_twice j) = RetryableFailure) /\
  rate_limited_twice (3 - 1)%nat = Resolved response_ok /\
  ok response_ok = true /\
  fst run = Normal (Value response_ok) /\
  fetched (snd run) = 3%nat /\
  attempts (log (snd run)) = 3%nat /\
  log (snd run) =
    [Fetch GEMINI_API_URL post; SetTimeout 1000;
     Fetch GEMINI_API_URL post; SetTimeout 2000;
     Fetch GEMINI_API_URL post].
Proof.
  cbv zeta.
  assert (H1 : (1 <= 3)%nat) by lia.
  assert (H2 : Z.of_nat 3 <= default 3 None) by (simpl; lia).
  assert (H3 : forall j, (j < 3 - 1)%nat ->
                 classify (rate_limited_twice j) = RetryableFailure)
    by (intros [| [| j]] Hj; [reflexivity | reflexivity | simpl in Hj; lia]).
  assert (H4 : rate_limited_twice (3 - 1)%nat = Resolved response_ok) by reflexivity.
  assert (H5 : ok response_ok = true) by reflexivity.
  repeat (split; [assumption |]).
  exact (success_on_attempt_k_is_returned InDocBotPage rate_limited_twice
           GEMINI_API_URL post None None 3%nat response_ok H1 H2 H3 H4 H5).
Defined.

(** C5 at retry 2 of the end-to-end scenario: the wait is 1000 * 2 ms. *)
Lemma backoff_delays_double_witness :
  let run := fetchWithBackoffAt InPredictionPage rate_limited_twice
               GEMINI_API_URL post (Some 3) (Some 1000) in
  (1 <= 2 < fetched (snd run))%nat /\
  nth_error (waits (log (snd run))) (2 - 1) = Some 2000.
Proof.
  cbv zeta.
  assert (Hj : (1 <= 2 < fetched (snd (fetchWithBackoffAt InPredictionPage
                  rate_limited_twice GEMINI_API_URL post (Some 3%Z) (Some 1000%Z))))%nat)
    by (vm_compute; lia).
  split; [exact Hj |].
  exact (proj2 (backoff_delays_double InPredictionPage) rate_limited_twice
           GEMINI_API_URL post (Some 3) (Some 1000) 2%nat Hj).
Defined.

(** C6 against a server that answers 429: one request, then the error. *)
Lemma single_attempt_budget_never_retries_witness :
  let t := always (Resolved response_429) in
  let run := fetchWithBackoffAt InDocBotPage t GEMINI_API_URL post (Some 1) None in
  failed (t 0%nat) = true /\
  log (snd run) = [Fetch GEMINI_API_URL post] /\
  fst run = Thrown (new_Error "API returned status 429").
Proof.
  cbv zeta.
  assert (Hf : failed (always (Resolved response_429) 0%nat) = true) by reflexivity.
  split; [exact Hf |].
  pose proof (single_attempt_budget_never_retries InDocBotPage
                (always (Resolved response_429)) GEMINI_API_URL post None) as H.
  cbv zeta in H. destruct H as (Hlog & _ & _ & Hraise).
  split; [exact Hlog | exact (Hraise Hf)].
Defined.

(** C7 at budget 2: one 429, then the network is down. *)
Lemma raised_error_is_last_failure_reason_witness :
  let t := script [Resolved response_429] (Rejected network_down) in
  let run := fetchWithBackoffAt InDocBotPage t GEMINI_API_URL post (Some 2) None in
  fst run = Thrown network_down /\
  failed (t 1%nat) = true /\
  network_down = reason (t 1%nat) /\
  (forall e', t 1%nat = Rejected e' -> network_down = e').
Proof.
  cbv zeta.
  assert (Hraise : fst (fetchWithBackoffAt InDocBotPage
                          (script [Resolved response_429] (Rejected network_down))
                          GEMINI_API_URL post (Some 2) None)
                   = Thrown network_down) by reflexivity.
  split; [exact Hraise |].
  pose proof (raised_error_is_last_failure_reason InDocBotPage
                (script [Resolved response_429] (Rejected network_down))
                GEMINI_API_URL post (Some 2) None network_down) as H.
  cbv zeta in H. destruct (H Hraise) as (Hf & He & _ & Hrej).
  split; [exact Hf |]. split; [exact He | exact Hrej].
Defined.

(** C10 at budget 0. *)
Lemma non_positive_budget_returns_undefined_witness :
  let run := fetchWithBackoffAt InPredictionPage (always (Resolved response_ok))
               GEMINI_API_URL post (Some 0) None in
  0 <= 0 /\
  fst run = Normal Undefined /\
  fetched (snd run) = 0%nat /\
  log (snd run) = [] /\
  snd run = initial GEMINI_API_URL post (Some 0) None.
Proof.
  cbv zeta.
  assert (Hn : 0 <= 0) by lia.
  split; [exact Hn |].
  exact (non_positive_budget_returns_undefined InPredictionPage
           (always (Resolved response_ok)) GEMINI_API_URL post 0 None Hn).
Defined.


(** * Symptom selection and search *)

Lemma includes_In l x : Symptoms.includes l x = true <-> In x l.
Proof.
  unfold Symptoms.includes. rewrite existsb_exists. split.
  - intros (y & Hy & Heq). apply String.eqb_eq in Heq. now subst.
  - intros Hx. exists x. split; [assumption | apply String.eqb_refl].
Qed.

Lemma includes_app l1 l2 x :
  Symptoms.includes (l1 ++ l2) x = Symptoms.includes l1 x || Symptoms.includes l2 x.
Proof. apply existsb_app. Qed.

Lemma includes_cons a l x :
  Symptoms.includes (a :: l) x = String.eqb a x || Symptoms.includes l x.
Proof. reflexivity. Qed.

Lemma includes_without l s x :
  Symptoms.includes (filter (fun y => negb (String.eqb y s)) l) x =
  Symptoms.includes l x && negb (String.eqb x s).
Proof.
  induction l as [| a l IH]; [reflexivity |].
  cbn [filter]. rewrite includes_cons.
  destruct (String.eqb a s) eqn:Has; cbn [negb].
  - rewrite IH. apply String.eqb_eq in Has. subst a.
    destruct (String.eqb s x) eqn:Hsx; [| reflexivity].
    apply String.eqb_eq in Hsx. subst x. rewrite String.eqb_refl. cbn.
    now rewrite andb_false_r.
  - rewrite includes_cons, IH.
    destruct (String.eqb a x) eqn:Hax; [| reflexivity].
    apply String.eqb_eq in Hax. subst x. rewrite Has. reflexivity.
Qed.

Lemma without_absent l s :
  ~ In s l -> filter (fun y => negb (String.eqb y s)) l = l.
Proof.
  induction l as [| a l IH]; intros Hs; [reflexivity |].
  cbn [filter]. destruct (String.eqb a s) eqn:Has.
  - apply String.eqb_eq in Has. subst a. exfalso. apply Hs. now left.
  - cbn. f_equal. apply IH. intros H. apply Hs. now right.
Qed.

Lemma without_length l s :
  NoDup l -> In s l ->
  S (List.length (filter (fun y => negb (String.eqb y s)) l)) = List.length l.
Proof.
  induction 1 as [| a l Ha Hl IH]; intros Hs; [destruct Hs |].
  cbn [filter]. destruct (String.eqb a s) eqn:Has; cbn.
  - apply String.eqb_eq in Has. subst a. now rewrite without_absent.
  - f_equal. apply IH. destruct Hs as [-> | Hs]; [| assumption].
    now rewrite String.eqb_refl in Has.
Qed.

Lemma without_moved_last l s :
  NoDup l -> In s l ->
  Permutation (filter (fun y => negb (String.eqb y s)) l ++ [s]) l.
Proof.
  induction 1 as [| a l Ha Hl IH]; intros Hs; [destruct Hs |].
  cbn [filter]. destruct (String.eqb a s) eqn:Has; cbn.
  - apply String.eqb_eq in Has. subst a. rewrite without_absent by assumption.
    symmetry. apply Permutation_cons_append.
  - apply perm_skip. apply IH. destruct Hs as [-> | Hs]; [| assumption].
    now rewrite String.eqb_refl in Has.
Qed.

(** X1.  Toggling a symptom flips whether that symptom is selected and
    leaves every other symptom as it was. *)
Theorem toggle_flips_exactly_that_symptom symptom x prev :
  Symptoms.includes (Symptoms.toggleSymptom symptom prev) x =
  if String.eqb x symptom
  then negb (Symptoms.includes prev symptom)
  else Symptoms.includes prev x.
Proof.
  unfold Symptoms.toggleSymptom.
  destruct (Symptoms.includes prev symptom) eqn:Hin.
  - rewrite includes_without.
    destruct (String.eqb x symptom) eqn:Hx; cbn.
    + apply andb_false_r.
    + apply andb_true_r.
  - rewrite includes_app. cbn. rewrite orb_false_r.
    destruct (String.eqb x symptom) eqn:Hx.
    + apply String.eqb_eq in Hx. subst x. rewrite String.eqb_refl.
      apply orb_true_r.
    + rewrite String.eqb_sym, Hx. apply orb_false_r.
Qed.

(** X2.  A selection without duplicates stays without duplicates under
    toggling, and its size changes by exactly one: down when the symptom
    was selected, up when it was not. *)
Theorem toggle_keeps_selection_duplicate_free symptom prev :
  NoDup prev ->
  NoDup (Symptoms.toggleSymptom symptom prev) /\
  (if Symptoms.includes prev symptom
   then S (List.length (Symptoms.toggleSymptom symptom prev)) = List.length prev
   else List.length (Symptoms.toggleSymptom symptom prev) = S (List.length prev)).
Proof.
  intros Hnd. unfold Symptoms.toggleSymptom.
  destruct (Symptoms.includes prev symptom) eqn:Hin.
  - split; [now apply NoDup_filter |].
    apply without_length; [assumption | now apply includes_In].
  - split.
    + apply NoDup_app; [assumption | constructor; [intros [] | constructor] |].
      intros y Hy [<- | []].
      apply includes_In in Hy. congruence.
    + rewrite length_app. cbn. lia.
Qed.

(** X3.  Toggling the same symptom twice: a symptom that was not selected
    is added and removed again, which gives back the very same list; a
    selected one is removed and then appended, so it ends up last.  On a
    selection without duplicates the result has the same symptoms as
    before. *)
Theorem toggle_twice symptom prev :
  (~ In symptom prev ->
   Symptoms.toggleSymptom symptom (Symptoms.toggleSymptom symptom prev) = prev) /\
  (In symptom prev ->
   Symptoms.toggleSymptom symptom (Symptoms.toggleSymptom symptom prev) =
   filter (fun y => negb (String.eqb y symptom)) prev ++ [symptom]) /\
  (NoDup prev ->
   Permutation (Symptoms.toggleSymptom symptom (Symptoms.toggleSymptom symptom prev)) prev).
Proof.
  assert (Hout : ~ In symptom prev ->
            Symptoms.toggleSymptom symptom (Symptoms.toggleSymptom symptom prev) = prev).
  { intros Hs.
    assert (Hin : Symptoms.includes prev symptom = false).
    { destruct (Symptoms.includes prev symptom) eqn:E; [| reflexivity].
      apply includes_In in E. contradiction. }
    unfold Symptoms.toggleSymptom at 2. rewrite Hin.
    unfold Symptoms.toggleSymptom.
    rewrite includes_app. cbn. rewrite String.eqb_refl, orb_true_r.
    rewrite filter_app. cbn. rewrite String.eqb_refl. cbn.
    rewrite app_nil_r. now apply without_absent. }
  assert (Hin : In symptom prev ->
            Symptoms.toggleSymptom symptom (Symptoms.toggleSymptom symptom prev) =
            filter (fun y => negb (String.eqb y symptom)) prev ++ [symptom]).
  { intros Hs. apply includes_In in Hs.
    unfold Symptoms.toggleSymptom at 2. rewrite Hs.
    unfold Symptoms.toggleSymptom.
    rewrite includes_without, String.eqb_refl. cbn. rewrite andb_false_r.
    reflexivity. }
  split; [exact Hout |]. split; [exact Hin |].
  intros Hnd. destruct (in_dec string_dec symptom prev) as [Hs | Hs].
  - rewrite Hin by assumption. now apply without_moved_last.
  - now rewrite Hout.
Qed.


Lemma str_includes_empty s : str_includes s "" = true.
Proof. destruct s; reflexivity. Qed.

Lemma prefix_refl s : String.prefix s s = true.
Proof.
  induction s as [| c s IH]; [reflexivity |].
  cbn. destruct (ascii_dec c c); [assumption | contradiction].
Qed.

Lemma str_includes_refl s : str_includes s s = true.
Proof. destruct s; cbn [str_includes]; now rewrite prefix_refl. Qed.

Lemma filter_all {A} (f : A -> bool) l :
  (forall x, f x = true) -> filter f l = l.
Proof.
  intros Hf. induction l as [| a l IH]; [reflexivity |].
  cbn. now rewrite Hf, IH.
Qed.

Lemma all_categories_searched :
  flat_map (fun cat => or_empty (symptoms_of cat)) SYMPTOM_CATEGORIES = catalogue.
Proof. reflexivity. Qed.

Lemma catalogue_NoDup : NoDup catalogue.
Proof.
  replace catalogue with (nodup string_dec catalogue) by (vm_compute; reflexivity).
  apply NoDup_nodup.
Qed.

Lemma category_in_catalogue cat s :
  In s (or_empty (symptoms_of cat)) -> In s catalogue.
Proof.
  unfold symptoms_of.
  destruct (find _ ALL_SYMPTOMS_CATEGORIZED) as [entry |] eqn:Hfind; [| intros []].
  apply find_some in Hfind. destruct Hfind as [Hentry _].
  intros Hs. unfold catalogue. apply in_flat_map. now exists entry.
Qed.

Lemma category_NoDup cat : NoDup (or_empty (symptoms_of cat)).
Proof.
  unfold symptoms_of.
  destruct (find _ ALL_SYMPTOMS_CATEGORIZED) as [entry |] eqn:Hfind; [| constructor].
  apply find_some in Hfind. destruct Hfind as [Hentry _].
  cbn in Hentry.
  repeat (destruct Hentry as [<- | Hentry];
          [cbn [or_empty snd];
           match goal with
           | |- NoDup ?l => replace l with (nodup string_dec l) by (vm_compute; reflexivity)
           end; apply NoDup_nodup |]).
  destruct Hentry.
Qed.

(** X4.  With the search box empty the page lists the symptoms of the
    active category and nothing else, each one once, in the order the
    collation gives.  An active category that is no key of the table lists
    nothing, unless it is a name inherited from [Object.prototype] (such as
    constructor): then the value read is not an array and the computation
    throws a [TypeError]. *)
Theorem empty_search_lists_active_category sort activeCategory :
  (forall l, Permutation (sort l) l) ->
  (forall symptoms,
     symptoms_of activeCategory = Some symptoms ->
     exists listed,
       Symptoms.filteredSymptoms sort activeCategory "" = inr listed /\
       Permutation listed symptoms /\
       NoDup listed) /\
  (symptoms_of activeCategory = None -> inherited activeCategory = false ->
   Symptoms.filteredSymptoms sort activeCategory "" = inr []) /\
  (symptoms_of activeCategory = None -> inherited activeCategory = true ->
   Symptoms.filteredSymptoms sort activeCategory "" =
   inl {| name := "TypeError"; message := "symptoms.filter is not a function" |}).
Proof.
  intros Hsort.
  assert (Hall : forall l,
            Permutation (sort (filter (fun s => str_includes (toLowerCase s) "") l)) l).
  { intros l. rewrite Hsort. rewrite filter_all; [reflexivity |].
    intros x. apply str_includes_empty. }
  unfold Symptoms.filteredSymptoms, category_read. cbn [nonempty toLowerCase].
  split; [| split].
  - intros symptoms Hown. rewrite Hown.
    eexists. split; [reflexivity |]. split; [apply Hall |].
    eapply Permutation_NoDup; [symmetry; apply Hall |].
    pose proof (category_NoDup activeCategory) as Hnd.
    now rewrite Hown in Hnd.
  - intros Hnone Hplain. rewrite Hnone, Hplain.
    f_equal. apply Permutation_nil. symmetry. apply Hall.
  - intros Hnone Hproto. rewrite Hnone, Hproto. reflexivity.
Qed.

(** X5.  A non-empty query searches the whole table whatever category is
    active: the page lists exactly the symptoms whose lower-cased name
    contains the lower-cased query, each one once, and the computation does
    not throw.  In particular a symptom's own name, typed in any letter
    case, finds it. *)
Theorem search_covers_every_category sort activeCategory searchQuery :
  (forall l, Permutation (sort l) l) ->
  nonempty searchQuery = true ->
  exists listed,
    Symptoms.filteredSymptoms sort activeCategory searchQuery = inr listed /\
    (forall s,
       In s listed <->
       In s catalogue /\
       str_includes (toLowerCase s) (toLowerCase searchQuery) = true) /\
    NoDup listed /\
    (forall s,
       In s catalogue -> toLowerCase searchQuery = toLowerCase s ->
       In s listed).
Proof.
  intros Hsort Hq.
  unfold Symptoms.filteredSymptoms. rewrite Hq, all_categories_searched.
  eexists. split; [reflexivity |].
  assert (Hmem : forall s,
            In s (sort (filter (fun x => str_includes (toLowerCase x)
                                            (toLowerCase searchQuery)) catalogue)) <->
            In s catalogue /\
            str_includes (toLowerCase s) (toLowerCase searchQuery) = true).
  { intros s. split.
    - intros Hs. apply (Permutation_in _ (Hsort _)) in Hs.
      now apply filter_In in Hs.
    - intros Hs. apply (Permutation_in _ (Permutation_sym (Hsort _))).
      now apply filter_In. }
  split; [exact Hmem |]. split.
  - eapply Permutation_NoDup; [symmetry; apply Hsort |].
    apply NoDup_filter, catalogue_NoDup.
  - intros s Hs Hname. apply Hmem. split; [assumption |].
    rewrite Hname. apply str_includes_refl.
Qed.

Lemma alarming_in_catalogue s :
  In s catalogue -> Symptoms.alarming s = true ->
  s = "Chest Pain" \/ s = "Difficulty Breathing".
Proof.
  intros Hs Ha.
  assert (Hall : forallb (fun x => implb (Symptoms.alarming x)
                                     (String.eqb x "Chest Pain"
                                      || String.eqb x "Difficulty Breathing"))
                   catalogue = true) by (vm_compute; reflexivity).
  rewrite forallb_forall in Hall. specialize (Hall s Hs).
  rewrite Ha in Hall. cbn in Hall.
  apply orb_true_iff in Hall. destruct Hall as [H | H];
    apply String.eqb_eq in H; auto.
Qed.

Lemma alarming_selected predictionResult selected :
  In "Chest Pain" selected \/ In "Difficulty Breathing" selected ->
  Prediction.isEmergency predictionResult selected = true.
Proof.
  intros Hsel. unfold Prediction.isEmergency.
  apply orb_true_iff. right. apply existsb_exists.
  destruct Hsel as [H | H]; eexists; (split; [exact H | reflexivity]).
Qed.

(** X6.  A selection that contains Chest Pain or Difficulty Breathing
    raises the emergency banner whatever the prediction says: no result
    yet, an error, or an answer whose flag is false.  So does any selected
    text that contains one of the two phrases in any letter case. *)
Theorem alarming_symptom_overrides_prediction predictionResult selected :
  (In "Chest Pain" selected \/ In "Difficulty Breathing" selected ->
   Prediction.isEmergency predictionResult selected = true) /\
  (forall s, In s selected ->
     str_includes (toLowerCase s) "chest pain" = true \/
     str_includes (toLowerCase s) "difficulty breathing" = true ->
     Prediction.isEmergency predictionResult selected = true).
Proof.
  split; [apply alarming_selected |].
  intros s Hs Hphrase. unfold Prediction.isEmergency.
  apply orb_true_iff. right. apply existsb_exists.
  exists s. split; [assumption |].
  unfold Symptoms.alarming. now apply orb_true_iff.
Qed.

(** X7.  For symptoms picked from the table and a prediction without a
    truthy flag, those two are the only ones that raise the banner: Chest
    Tightness or Shortness of Breath alone do not. *)
Theorem only_two_symptoms_raise_banner predictionResult selected :
  Forall (fun s => In s catalogue) selected ->
  truthy (get_opt predictionResult "emergency_flag") = false ->
  (Prediction.isEmergency predictionResult selected = true <->
   In "Chest Pain" selected \/ In "Difficulty Breathing" selected).
Proof.
  intros Hcat Hflag. split; [| apply alarming_selected].
  unfold Prediction.isEmergency. rewrite Hflag. cbn [orb].
  intros Hex. apply existsb_exists in Hex. destruct Hex as (s & Hs & Ha).
  rewrite Forall_forall in Hcat.
  destruct (alarming_in_catalogue s (Hcat s Hs) Ha) as [-> | ->]; auto.
Qed.


(** * The chat flow *)

Lemma trimStart_blank s : all_space s = true -> trimStart s = "".
Proof.
  induction s as [| c s IH]; [reflexivity |].
  cbn. intros H. apply andb_true_iff in H. destruct H as [Hc Hs].
  rewrite Hc. now apply IH.
Qed.

Lemma trimEnd_head c s : is_space c = false -> nonempty (trimEnd (String c s)) = true.
Proof.
  intros Hc. cbn [trimEnd]. destruct (trimEnd s); [now rewrite Hc | reflexivity].
Qed.

Lemma trimStart_text s :
  all_space s = false ->
  exists c rest, trimStart s = String c rest /\ is_space c = false.
Proof.
  induction s as [| c s IH]; [discriminate |].
  cbn. destruct (is_space c) eqn:Hc; cbn.
  - exact IH.
  - intros _. now exists c, s.
Qed.

(** The guard of [handleSend] tests exactly whether the text is blank. *)
Lemma trim_empty_iff_blank s : negb (nonempty (trim s)) = all_space s.
Proof.
  unfold trim. destruct (all_space s) eqn:Hs.
  - now rewrite trimStart_blank.
  - destruct (trimStart_text s Hs) as (c & rest & -> & Hc).
    now rewrite trimEnd_head.
Qed.

Lemma written_app l1 l2 : written (l1 ++ l2) = written l1 ++ written l2.
Proof.
  induction l1 as [| e l1 IH]; [reflexivity |].
  destruct e; cbn; now rewrite ?IH.
Qed.

Lemma network_app l1 l2 : network (l1 ++ l2) = network l1 ++ network l2.
Proof.
  induction l1 as [| e l1 IH]; [reflexivity |].
  destruct e; cbn; now rewrite ?IH.
Qed.

Lemma busy_flags_app l1 l2 : busy_flags (l1 ++ l2) = busy_flags l1 ++ busy_flags l2.
Proof.
  induction l1 as [| e l1 IH]; [reflexivity |].
  destruct e; cbn; now rewrite ?IH.
Qed.

Lemma shown_app l1 l2 : shown (l1 ++ l2) = shown l1 ++ shown l2.
Proof.
  induction l1 as [| e l1 IH]; [reflexivity |].
  destruct e; cbn; now rewrite ?IH.
Qed.

Lemma written_Net l : written (map Net l) = [].
Proof. induction l; [reflexivity | assumption]. Qed.

Lemma busy_flags_Net l : busy_flags (map Net l) = [].
Proof. induction l; [reflexivity | assumption]. Qed.

Lemma shown_Net l : shown (map Net l) = [].
Proof. induction l; [reflexivity | assumption]. Qed.

Lemma network_Net l : network (map Net l) = l.
Proof. induction l as [| e l IH]; [reflexivity | cbn; now rewrite IH]. Qed.

(** Unfold the plumbing of a flow, leaving the calls into the world. *)
Ltac flow :=
  cbv [andThen emit doc setDoc try_catch_finally awaitBackoff json_of settle
       done reject start];
  cbn [writes ids effects fst snd app].

(** Read a projection of the effects. *)
Ltac observe :=
  repeat (progress
            (rewrite ?written_app, ?busy_flags_app, ?shown_app, ?network_app,
                     ?written_Net, ?busy_flags_Net, ?shown_Net, ?network_Net;
             cbn [written busy_flags shown network app])).

Lemma chat_guard p v message :
  negb (nonempty (trim message)) || Chat.isTyping v || negb (db p)
  || negb (present (userId p)) || negb (present (appId p))
  = chat_blocked p v message.
Proof. unfold chat_blocked. now rewrite trim_empty_iff_blank. Qed.

(** Enter [handleSend] with the guard decided by [H]. *)
Ltac enter_chat H :=
  unfold Chat.handleSend; cbv zeta;
  match goal with
  | |- context [match ?mt with Some text => text | None => Chat.currentMessage ?v end] =>
      change (match mt with Some text => text | None => Chat.currentMessage v end)
        with (chat_message v mt)
  end;
  rewrite chat_guard, H.

(** The helper called from a flow with its default budget ends after at
    most three requests, all of them the same. *)
Lemma default_run t u o :
  exists k c,
    (k < 3)%nat /\
    c <> OutOfFuel /\
    DocBotPage.fetchWithBackoff t u o None None = (c, finished u o 3 1000 k).
Proof.
  destruct (run_ends t u o None None) as [(Hn & _) | (k & c & Hk & Hrun)].
  - cbn in Hn. lia.
  - exists k, c. cbn [default] in Hk, Hrun. split; [lia |]. split; [| exact Hrun].
    intros ->. apply (fetchWithBackoff_total t u o None None).
    now rewrite Hrun.
Qed.

(** X8.  [handleSend] does nothing at all (no write, no request, no state
    change) when the text is blank, when a reply is still pending, or when
    the database handle, the user id or the app id is missing. *)
Theorem blank_or_busy_message_is_ignored w p v messageText s :
  all_space (chat_message v messageText) = true \/
  Chat.isTyping v = true \/
  db p = false \/ present (userId p) = false \/ present (appId p) = false ->
  Chat.handleSend w p v messageText s = (Normal tt, s).
Proof.
  intros Hcause.
  assert (Hblocked : chat_blocked p v (chat_message v messageText) = true).
  { unfold chat_blocked.
    destruct Hcause as [H | [H | [H | [H | H]]]]; rewrite H; cbn;
      rewrite ?orb_true_r; reflexivity. }
  enter_chat Hblocked. reflexivity.
Qed.

(** X9.  When the guard lets a message through and the writes succeed, the
    turn completes normally whatever the network and the response do. It
    stores exactly two documents: the trimmed text with role user, then one
    reply whose role is ai or ai_error.  The typing flag is raised once and
    lowered once. *)
Theorem one_reply_per_message w p v messageText :
  chat_blocked p v (chat_message v messageText) = false ->
  setDoc_outcome w 0%nat = None ->
  setDoc_outcome w 1%nat = None ->
  let turn := Chat.handleSend w p v messageText start in
  fst turn = Normal tt /\
  busy_flags (effects (snd turn)) = [true; false] /\
  exists text role,
    written (effects (snd turn)) =
      [Chat.message_doc (VStr (trim (chat_message v messageText))) "user" (auto_id w 0%nat);
       Chat.message_doc text role (auto_id w 1%nat)] /\
    (role = "ai" \/ role = "ai_error").
Proof.
  intros Hopen Hw0 Hw1. cbv zeta. enter_chat Hopen. flow. rewrite Hw0.
  destruct (default_run (transport w) (api_url w)
              (post_json w (Chat.payload v (trim (chat_message v messageText)))))
    as (k & c & _ & Hfuel & ->).
  cbn [fst snd].
  destruct c as [[r |] | e |]; [| | | contradiction].
  - destruct (response_json w r) as [e | result]; cbn [writes ids effects].
    + rewrite Hw1. cbn [fst snd effects]. observe.
      split; [reflexivity |]. split; [reflexivity |]. eauto.
    + destruct (get result "candidates") as [e | candidates]; cbn [writes ids effects];
        rewrite Hw1; cbn [fst snd effects]; observe;
        (split; [reflexivity |]); (split; [reflexivity |]); eauto.
  - cbn [writes ids effects]. rewrite Hw1. cbn [fst snd effects]. observe.
    split; [reflexivity |]. split; [reflexivity |]. eauto.
  - cbn [writes ids effects]. rewrite Hw1. cbn [fst snd effects]. observe.
    split; [reflexivity |]. split; [reflexivity |]. eauto.
Qed.

(** X10.  When storing the user's own message fails, [handleSend] rejects
    with that error.  By then the input box has been cleared; no request is
    made, no reply or error document is written, and the typing flag is
    never touched. *)
Theorem failed_first_write_loses_the_message w p v messageText e :
  chat_blocked p v (chat_message v messageText) = false ->
  setDoc_outcome w 0%nat = Some e ->
  Chat.handleSend w p v messageText start =
  (Thrown e,
   {| writes := 1; ids := 1;
      effects :=
        [SetCurrentMessage "";
         SetDoc (Chat.chat_path p) (auto_id w 0%nat)
           (Chat.message_doc (VStr (trim (chat_message v messageText))) "user"
              (auto_id w 0%nat))] |}).
Proof.
  intros Hopen Hw0. enter_chat Hopen. flow. rewrite Hw0. reflexivity.
Qed.

(** X11.  Chat turn whose two Firestore writes succeed, against a network
    that fails three times in a row (rejections or responses without [ok],
    of any status).  The helper's
    three identical requests and its waits of 1000 and 2000 ms happen
    between raising and lowering the typing flag; the failure of the third
    attempt is logged and an ai_error document with the fixed apology is
    stored.  Nothing else happens. *)
Theorem exhausted_chat_turn_stores_error_notice w p v messageText :
  chat_blocked p v (chat_message v messageText) = false ->
  setDoc_outcome w 0%nat = None ->
  setDoc_outcome w 1%nat = None ->
  (forall j, (j <= 2)%nat -> failed (transport w j) = true) ->
  let request := Net (Fetch (api_url w) (chat_request w v (chat_message v messageText))) in
  Chat.handleSend w p v messageText start =
  (Normal tt,
   {| writes := 2; ids := 2;
      effects :=
        [SetCurrentMessage "";
         SetDoc (Chat.chat_path p) (auto_id w 0%nat)
           (Chat.message_doc (VStr (trim (chat_message v messageText))) "user"
              (auto_id w 0%nat));
         SetIsTyping true;
         request; Net (SetTimeout 1000);
         request; Net (SetTimeout 2000);
         request;
         ConsoleError "Chatbot API failed:" (reason (transport w 2%nat));
         SetDoc (Chat.chat_path p) (auto_id w 1%nat)
           (Chat.message_doc (VStr Chat.error_text) "ai_error" (auto_id w 1%nat));
         SetIsTyping false] |}).
Proof.
  intros Hopen Hw0 Hw1 Hfail. cbv zeta. enter_chat Hopen. flow. rewrite Hw0.
  rewrite (run_exhausted (transport w) _ _ None None 2) by (reflexivity || exact Hfail).
  cbn [fst snd writes ids effects]. rewrite Hw1.
  reflexivity.
Qed.

(** X12.  Chat turn whose two Firestore writes succeed and whose first
    request is answered with [ok] set.  If the
    body parses to a value with a readable [candidates], the reply stored
    is the text found under [candidates[0].content.parts[0].text], or, when
    nothing truthy is there, the fixed "Sorry, ..." text; either way with
    role ai, after a single request.  A body that parses to [null], or
    does not parse, gives the ai_error document instead. *)
Theorem answered_chat_turn w p v messageText r :
  chat_blocked p v (chat_message v messageText) = false ->
  setDoc_outcome w 0%nat = None ->
  setDoc_outcome w 1%nat = None ->
  transport w 0%nat = Resolved r ->
  ok r = true ->
  let turn := Chat.handleSend w p v messageText start in
  let user_doc :=
    Chat.message_doc (VStr (trim (chat_message v messageText))) "user" (auto_id w 0%nat) in
  network (effects (snd turn)) =
    [Fetch (api_url w) (chat_request w v (chat_message v messageText))] /\
  (forall result candidates,
     response_json w r = inr result ->
     get result "candidates" = inr candidates ->
     written (effects (snd turn)) =
       [user_doc;
        Chat.message_doc
          (or_else (first_candidate_text candidates) (VStr Chat.fallback_text))
          "ai" (auto_id w 1%nat)]) /\
  (forall fields,
     response_json w r = inr (VObj fields) ->
     truthy (first_candidate_text (own fields "candidates")) = false ->
     written (effects (snd turn)) =
       [user_doc; Chat.message_doc (VStr Chat.fallback_text) "ai" (auto_id w 1%nat)]) /\
  (response_json w r = inr VNull \/ (exists e, response_json w r = inl e) ->
   written (effects (snd turn)) =
     [user_doc; Chat.message_doc (VStr Chat.error_text) "ai_error" (auto_id w 1%nat)]).
Proof.
  intros Hopen Hw0 Hw1 Hr Hok. cbv zeta. enter_chat Hopen. flow. rewrite Hw0.
  rewrite (run_success (transport w) _ _ None None 0 r)
    by (assumption || (cbn; lia) || (intros j Hj; lia)).
  cbn [fst snd writes ids effects finished log rounds app map].
  split; [| split; [| split]].
  - destruct (response_json w r) as [e | result]; cbn [writes ids effects].
    + rewrite Hw1. cbn [fst snd effects]. observe. reflexivity.
    + destruct (get result "candidates") as [e | candidates]; cbn [writes ids effects];
        rewrite Hw1; cbn [fst snd effects]; observe; reflexivity.
  - intros result candidates Hjson Hcandidates.
    rewrite Hjson. cbn [writes ids effects]. rewrite Hcandidates.
    cbn [writes ids effects]. rewrite Hw1. cbn [fst snd effects]. observe.
    reflexivity.
  - intros fields Hjson Hfalsy.
    rewrite Hjson. cbn [writes ids effects get]. unfold or_else. rewrite Hfalsy.
    rewrite Hw1. cbn [fst snd effects]. observe.
    reflexivity.
  - intros [Hjson | (e & Hjson)]; rewrite Hjson; cbn [writes ids effects get];
      rewrite Hw1; cbn [fst snd effects]; observe; reflexivity.
Qed.

(** X13.  Whatever the network, the parser and the later writes do, a chat
    turn that gets past its first write makes at least one and at most
    three requests.  All of them go to the API address with the same POST
    options, whose body is the serialised payload of that turn, and a wait
    of 1000 ms, then of 2000 ms, separates them. *)
Theorem chat_turn_requests w p v messageText :
  chat_blocked p v (chat_message v messageText) = false ->
  setDoc_outcome w 0%nat = None ->
  let turn := Chat.handleSend w p v messageText start in
  let request := chat_request w v (chat_message v messageText) in
  method request = "POST" /\
  headers request = [("Content-Type", "application/json")] /\
  body request = JSON_stringify w (Chat.payload v (trim (chat_message v messageText))) /\
  exists k,
    (k < 3)%nat /\
    network (effects (snd turn)) =
      rounds (api_url w) request 1000 k ++ [Fetch (api_url w) request].
Proof.
  intros Hopen Hw0. cbv zeta.
  split; [reflexivity |]. split; [reflexivity |]. split; [reflexivity |].
  enter_chat Hopen. flow. rewrite Hw0.
  destruct (default_run (transport w) (api_url w)
              (post_json w (Chat.payload v (trim (chat_message v messageText)))))
    as (k & c & Hk & Hfuel & ->).
  exists k. split; [exact Hk |].
  cbn [fst snd].
  destruct c as [[r |] | e |]; [| | | contradiction].
  - destruct (response_json w r) as [e | result]; cbn [writes ids effects].
    + destruct (setDoc_outcome w 1%nat); cbn [fst snd effects]; observe;
        now rewrite ?app_nil_r.
    + destruct (get result "candidates") as [e | candidates]; cbn [writes ids effects].
      * destruct (setDoc_outcome w 1%nat); cbn [fst snd effects]; observe;
          now rewrite ?app_nil_r.
      * destruct (setDoc_outcome w 1%nat); cbn [fst snd writes ids effects].
        -- destruct (setDoc_outcome w 2%nat); cbn [fst snd effects]; observe;
             now rewrite ?app_nil_r.
        -- observe. now rewrite ?app_nil_r.
  - cbn [writes ids effects].
    destruct (setDoc_outcome w 1%nat); cbn [fst snd effects]; observe;
      now rewrite ?app_nil_r.
  - cbn [writes ids effects].
    destruct (setDoc_outcome w 1%nat); cbn [fst snd effects]; observe;
      now rewrite ?app_nil_r.
Qed.

(** X14.  What a chat turn tells the model about the conversation: one
    entry per stored message, in the stored order, followed by the new
    message as role user.  A stored message is sent as role model exactly
    when its role is the string ai; every other one, the ai_error notices
    included, is sent as role user. *)
Theorem chat_history_roles v userMessage :
  List.length (Chat.apiHistory v userMessage) = S (List.length (Chat.chatHistory v)) /\
  last (Chat.apiHistory v userMessage) VUndefined =
    VObj [("role", VStr "user"); ("parts", VArr [VObj [("text", VStr userMessage)]])] /\
  (forall i msg,
     nth_error (Chat.chatHistory v) i = Some msg ->
     exists entry,
       nth_error (Chat.apiHistory v userMessage) i = Some entry /\
       get_opt entry "parts" = VArr [VObj [("text", own msg "text")]] /\
       (role_of entry = VStr "model" <-> own msg "role" = VStr "ai") /\
       (role_of entry = VStr "user" <-> own msg "role" <> VStr "ai")) /\
  (forall entry,
     In entry (Chat.apiHistory v userMessage) ->
     role_of entry = VStr "model" \/ role_of entry = VStr "user").
Proof.
  unfold Chat.apiHistory.
  split; [rewrite length_app, length_map; cbn; lia |].
  split; [apply last_last |].
  assert (Hrole : forall msg,
            (role_of (Chat.api_entry msg) = VStr "model" <-> own msg "role" = VStr "ai") /\
            (role_of (Chat.api_entry msg) = VStr "user" <-> own msg "role" <> VStr "ai")).
  { intros msg.
    assert (Hai : Chat.is_ai (own msg "role") = true <-> own msg "role" = VStr "ai").
    { unfold Chat.is_ai. destruct (own msg "role") as [| | b | x | r | items | fields];
        try (split; discriminate).
      rewrite String.eqb_eq. split; [now intros -> | now intros [= ->]]. }
    change (role_of (Chat.api_entry msg))
      with (VStr (if Chat.is_ai (own msg "role") then "model" else "user")).
    destruct (Chat.is_ai (own msg "role")).
    - split; split; try reflexivity; try discriminate.
      + intros _. now apply Hai.
      + intros Hno. exfalso. apply Hno. now apply Hai.
    - split; split; try reflexivity; try discriminate.
      + intros H. now apply Hai in H.
      + intros _ H. now apply Hai in H. }
  split.
  - intros i msg Hi. exists (Chat.api_entry msg). split.
    + rewrite nth_error_app1 by (rewrite length_map; apply nth_error_Some; congruence).
      now rewrite nth_error_map, Hi.
    + split; [reflexivity | apply Hrole].
  - intros entry Hentry. apply in_app_or in Hentry.
    destruct Hentry as [Hentry | [<- | []]]; [| now right].
    apply in_map_iff in Hentry. destruct Hentry as (msg & <- & _).
    unfold role_of, Chat.api_entry. cbn.
    destruct (Chat.is_ai (own msg "role")); auto.
Qed.

(** * The prediction flow *)

(** X15.  [handlePrediction] never rejects, in any world.  Without selected
    symptoms it only resets the result to [null].  With symptoms it raises
    the loading flag once and lowers it once, resets the result, and then
    shows an outcome: the parsed answer, an error object, or the parsed
    answer replaced by an error object.  It makes between one and three
    identical requests with waits of 1000 and 2000 ms between them. *)
Theorem prediction_always_settles w p v :
  let run := Prediction.handlePrediction w p v start in
  fst run = Normal tt /\
  (Prediction.selectedSymptoms v = [] ->
   effects (snd run) = [SetPredictionResult VNull]) /\
  (Prediction.selectedSymptoms v <> [] ->
   busy_flags (effects (snd run)) = [true; false] /\
   ((exists parsedResult, shown (effects (snd run)) = [VNull; parsedResult]) \/
    (exists e, shown (effects (snd run)) = [VNull; Prediction.error_result e]) \/
    (exists parsedResult e,
       shown (effects (snd run)) = [VNull; parsedResult; Prediction.error_result e])) /\
   exists k,
     (k < 3)%nat /\
     network (effects (snd run)) =
       rounds (api_url w) (post_json w (Prediction.payload w v)) 1000 k
       ++ [Fetch (api_url w) (post_json w (Prediction.payload w v))]).
Proof.
  cbv zeta. unfold Prediction.handlePrediction.
  destruct (Prediction.selectedSymptoms v) as [| symptom others].
  - split; [reflexivity |]. split; [reflexivity |].
    intros Hsome. now contradiction Hsome.
  - flow. rewrite copies_agree.
    destruct (default_run (transport w) (api_url w) (post_json w (Prediction.payload w v)))
      as (k & c & Hk & Hfuel & ->).
    cbn [fst snd].
    assert (Hnet : forall tail,
              network tail = [] ->
              exists k0, (k0 < 3)%nat /\
                network (([SetIsLoading true; SetPredictionResult VNull; ScrollTimer 100]
                          ++ map Net (log (finished (api_url w)
                                             (post_json w (Prediction.payload w v)) 3 1000 k)))
                         ++ tail) =
                rounds (api_url w) (post_json w (Prediction.payload w v)) 1000 k0
                ++ [Fetch (api_url w) (post_json w (Prediction.payload w v))]).
    { intros tail Htail. exists k. split; [exact Hk |].
      observe. rewrite Htail. now rewrite app_nil_r. }
    destruct c as [[r |] | e |]; [| | | contradiction].
    + destruct (response_json w r) as [e | result]; cbn [writes ids effects fst snd].
      { split; [reflexivity |]. split; [discriminate |]. intros _.
        split; [observe; reflexivity |]. split; [right; left; observe; eauto |].
        rewrite <- !app_assoc. apply Hnet. reflexivity. }
      destruct (get result "candidates") as [e | candidates]; cbn [writes ids effects fst snd].
      { split; [reflexivity |]. split; [discriminate |]. intros _.
        split; [observe; reflexivity |]. split; [right; left; observe; eauto |].
        rewrite <- !app_assoc. apply Hnet. reflexivity. }
      destruct (truthy (first_candidate_text candidates)); cbn [negb writes ids effects fst snd].
      2:{ split; [reflexivity |]. split; [discriminate |]. intros _.
          split; [observe; reflexivity |]. split; [right; left; observe; eauto |].
          rewrite <- !app_assoc. apply Hnet. reflexivity. }
      destruct (JSON_parse w (first_candidate_text candidates)) as [e | parsedResult];
        cbn [writes ids effects fst snd].
      { split; [reflexivity |]. split; [discriminate |]. intros _.
        split; [observe; reflexivity |]. split; [right; left; observe; eauto |].
        rewrite <- !app_assoc. apply Hnet. reflexivity. }
      destruct (db p && present (userId p) && present (appId p));
        cbn [writes ids effects fst snd].
      2:{ split; [reflexivity |]. split; [discriminate |]. intros _.
          split; [observe; reflexivity |]. split; [left; observe; eauto |].
          rewrite <- !app_assoc. apply Hnet. reflexivity. }
      destruct (setDoc_outcome w 0%nat) as [e |]; cbn [writes ids effects fst snd].
      * split; [reflexivity |]. split; [discriminate |]. intros _.
        split; [observe; reflexivity |]. split; [right; right; observe; eauto |].
        rewrite <- !app_assoc. apply Hnet. reflexivity.
      * split; [reflexivity |]. split; [discriminate |]. intros _.
        split; [observe; reflexivity |]. split; [left; observe; eauto |].
        rewrite <- !app_assoc. apply Hnet. reflexivity.
    + cbn [writes ids effects fst snd].
      split; [reflexivity |]. split; [discriminate |]. intros _.
      split; [observe; reflexivity |]. split; [right; left; observe; eauto |].
      rewrite <- !app_assoc. apply Hnet. reflexivity.
    + cbn [writes ids effects fst snd].
      split; [reflexivity |]. split; [discriminate |]. intros _.
      split; [observe; reflexivity |]. split; [right; left; observe; eauto |].
      rewrite <- !app_assoc. apply Hnet. reflexivity.
Qed.

(** X16.  Prediction run with at least one symptom selected, against a
    network that fails three times in a row.  The three identical requests and the waits of 1000 and 2000 ms
    happen while the loading flag is up; the failure of the third attempt
    is logged and shown as "Could not retrieve AI prediction. " followed by
    its message.  Nothing is parsed and nothing is written to the
    history. *)
Theorem exhausted_prediction_shows_error w p v :
  Prediction.selectedSymptoms v <> [] ->
  (forall j, (j <= 2)%nat -> failed (transport w j) = true) ->
  let request := Net (Fetch (api_url w) (post_json w (Prediction.payload w v))) in
  let failure := reason (transport w 2%nat) in
  Prediction.handlePrediction w p v start =
  (Normal tt,
   {| writes := 0; ids := 0;
      effects :=
        [SetIsLoading true; SetPredictionResult VNull; ScrollTimer 100;
         request; Net (SetTimeout 1000);
         request; Net (SetTimeout 2000);
         request;
         ConsoleError "Prediction failed:" failure;
         SetPredictionResult
           (VObj [("error",
                   VStr ("Could not retrieve AI prediction. " ++ message failure)%string)]);
         SetIsLoading false] |}).
Proof.
  intros Hsome Hfail. cbv zeta. unfold Prediction.handlePrediction.
  destruct (Prediction.selectedSymptoms v) as [| symptom others]; [now contradiction Hsome |].
  flow. rewrite copies_agree.
  rewrite (run_exhausted (transport w) _ _ None None 2) by (reflexivity || exact Hfail).
  reflexivity.
Qed.


(** X18.  Prediction run with at least one symptom selected, whose first
    request is answered with [ok] set, whose answer parses, and whose
    history write (when there is one) succeeds.  The answer is shown.  It is written to the history, with the selected symptoms, age
    and gender, only when the database handle, the user id and the app id
    are all present; without them the answer is shown all the same and
    nothing is written. *)
Theorem parsed_answer_is_shown w p v r result candidates parsedResult :
  Prediction.selectedSymptoms v <> [] ->
  transport w 0%nat = Resolved r ->
  ok r = true ->
  response_json w r = inr result ->
  get result "candidates" = inr candidates ->
  truthy (first_candidate_text candidates) = true ->
  JSON_parse w (first_candidate_text candidates) = inr parsedResult ->
  setDoc_outcome w 0%nat = None ->
  let run := Prediction.handlePrediction w p v start in
  fst run = Normal tt /\
  shown (effects (snd run)) = [VNull; parsedResult] /\
  network (effects (snd run)) =
    [Fetch (api_url w) (post_json w (Prediction.payload w v))] /\
  written (effects (snd run)) =
    (if db p && present (userId p) && present (appId p)
     then [VObj [("symptoms", VArr (map VStr (Prediction.selectedSymptoms v)));
                 ("age", VNum (Prediction.age v));
                 ("gender", VStr (Prediction.gender v));
                 ("result", parsedResult);
                 ("timestamp", serverTimestamp)]]
     else []).
Proof.
  intros Hsome Hr Hok Hjson Hcandidates Htruthy Hparse Hw0. cbv zeta.
  unfold Prediction.handlePrediction.
  destruct (Prediction.selectedSymptoms v) as [| symptom others] eqn:Hsel;
    [now contradiction Hsome |].
  flow. rewrite copies_agree.
  rewrite (run_success (transport w) _ _ None None 0 r)
    by (assumption || (cbn; lia) || (intros j Hj; lia)).
  cbn [fst snd writes ids effects]. rewrite Hjson. cbn [writes ids effects].
  rewrite Hcandidates. cbn [writes ids effects].
  rewrite Htruthy. cbn [negb]. rewrite Hparse. cbn [writes ids effects].
  destruct (db p && present (userId p) && present (appId p)); cbn [writes ids effects].
  - rewrite Hw0. cbn [fst snd effects]. observe.
    unfold Prediction.history_doc. rewrite Hsel. repeat split.
  - cbn [fst snd effects]. observe. repeat split.
Qed.

(** X19.  A history write that fails hides a good answer.  When the answer
    was obtained on the first request, parsed and shown, and the database handle, user id and
    app id are present, a rejected [setDoc] sends the flow into its
    [catch]: the page ends up showing "Could not retrieve AI prediction. "
    followed by the message of the write error, in place of the answer. *)
Theorem failed_history_write_replaces_answer w p v r result candidates parsedResult e :
  Prediction.selectedSymptoms v <> [] ->
  transport w 0%nat = Resolved r ->
  ok r = true ->
  response_json w r = inr result ->
  get result "candidates" = inr candidates ->
  truthy (first_candidate_text candidates) = true ->
  JSON_parse w (first_candidate_text candidates) = inr parsedResult ->
  db p = true -> present (userId p) = true -> present (appId p) = true ->
  setDoc_outcome w 0%nat = Some e ->
  let run := Prediction.handlePrediction w p v start in
  fst run = Normal tt /\
  shown (effects (snd run)) =
    [VNull; parsedResult;
     VObj [("error", VStr ("Could not retrieve AI prediction. " ++ message e)%string)]] /\
  last (effects (snd run)) (SetIsLoading true) = SetIsLoading false.
Proof.
  intros Hsome Hr Hok Hjson Hcandidates Htruthy Hparse Hdb Huser Happ Hw0. cbv zeta.
  unfold Prediction.handlePrediction.
  destruct (Prediction.selectedSymptoms v) as [| symptom others] eqn:Hsel;
    [now contradiction Hsome |].
  flow. rewrite copies_agree.
  rewrite (run_success (transport w) _ _ None None 0 r)
    by (assumption || (cbn; lia) || (intros j Hj; lia)).
  cbn [fst snd writes ids effects]. rewrite Hjson. cbn [writes ids effects].
  rewrite Hcandidates. cbn [writes ids effects].
  rewrite Htruthy. cbn [negb]. rewrite Hparse. cbn [writes ids effects].
  rewrite Hdb, Huser, Happ. cbn [andb writes ids effects]. rewrite Hw0.
  cbn [fst snd effects]. split; [reflexivity |]. split.
  - observe. reflexivity.
  - apply last_last.
Qed.


(** * The added theorems at concrete inputs *)

Lemma toggle_keeps_selection_duplicate_free_witness :
  NoDup ["Fever"; "Cough"] /\
  NoDup (Symptoms.toggleSymptom "Fever" ["Fever"; "Cough"]) /\
  Symptoms.toggleSymptom "Fever" ["Fever"; "Cough"] = ["Cough"].
Proof.
  assert (Hnd : NoDup ["Fever"; "Cough"]).
  { replace ["Fever"; "Cough"] with (nodup string_dec ["Fever"; "Cough"]) by reflexivity.
    apply NoDup_nodup. }
  split; [exact Hnd |].
  split; [| reflexivity].
  exact (proj1 (toggle_keeps_selection_duplicate_free "Fever" ["Fever"; "Cough"] Hnd)).
Defined.

Lemma toggle_twice_witness :
  ~ In "Rash" ["Fever"; "Cough"] /\
  Symptoms.toggleSymptom "Rash" (Symptoms.toggleSymptom "Rash" ["Fever"; "Cough"])
  = ["Fever"; "Cough"].
Proof.
  assert (Hout : ~ In "Rash" ["Fever"; "Cough"]).
  { intros [H | [H | []]]; discriminate. }
  split; [exact Hout |].
  exact (proj1 (toggle_twice "Rash" ["Fever"; "Cough"]) Hout).
Defined.

Lemma empty_search_lists_active_category_witness :
  (forall l : list string, Permutation l l) /\
  symptoms_of "Cardiac" =
    Some ["Chest Pain"; "Palpitations"; "Fainting"; "Swelling of Legs/Ankles";
          "Rapid Heartbeat"; "Lightheadedness"; "Pain Radiating to Jaw/Arm"] /\
  (exists listed,
     Symptoms.filteredSymptoms (fun l => l) "Cardiac" "" = inr listed /\
     Permutation listed
       ["Chest Pain"; "Palpitations"; "Fainting"; "Swelling of Legs/Ankles";
        "Rapid Heartbeat"; "Lightheadedness"; "Pain Radiating to Jaw/Arm"] /\
     NoDup listed) /\
  symptoms_of "constructor" = None /\
  inherited "constructor" = true /\
  Symptoms.filteredSymptoms (fun l => l) "constructor" "" =
  inl {| name := "TypeError"; message := "symptoms.filter is not a function" |}.
Proof.
  assert (Hsort : forall l : list string, Permutation ((fun l => l) l) l)
    by (intros l; apply Permutation_refl).
  assert (Hown : symptoms_of "Cardiac" =
                 Some ["Chest Pain"; "Palpitations"; "Fainting"; "Swelling of Legs/Ankles";
                       "Rapid Heartbeat"; "Lightheadedness"; "Pain Radiating to Jaw/Arm"])
    by reflexivity.
  assert (Hnone : symptoms_of "constructor" = None) by reflexivity.
  assert (Hproto : inherited "constructor" = true) by reflexivity.
  split; [exact Hsort |]. split; [exact Hown |].
  split.
  - exact (proj1 (empty_search_lists_active_category (fun l => l) "Cardiac" Hsort)
             _ Hown).
  - split; [exact Hnone |]. split; [exact Hproto |].
    exact (proj2 (proj2 (empty_search_lists_active_category (fun l => l) "constructor"
                           Hsort)) Hnone Hproto).
Defined.

Lemma search_covers_every_category_witness :
  (forall l : list string, Permutation l l) /\
  nonempty "FEVER" = true /\
  In "Fever" catalogue /\
  toLowerCase "FEVER" = toLowerCase "Fever" /\
  exists listed,
    Symptoms.filteredSymptoms (fun l => l) "Skin" "FEVER" = inr listed /\
    In "Fever" listed.
Proof.
  assert (Hsort : forall l : list string, Permutation ((fun l => l) l) l)
    by (intros l; apply Permutation_refl).
  assert (Hq : nonempty "FEVER" = true) by reflexivity.
  assert (Hin : In "Fever" catalogue) by (vm_compute; tauto).
  assert (Hname : toLowerCase "FEVER" = toLowerCase "Fever") by reflexivity.
  split; [exact Hsort |]. split; [exact Hq |]. split; [exact Hin |].
  split; [exact Hname |].
  destruct (search_covers_every_category (fun l => l) "Skin" "FEVER" Hsort Hq)
    as (listed & Hrun & _ & _ & Hfind).
  exists listed. split; [exact Hrun | exact (Hfind "Fever" Hin Hname)].
Defined.

Lemma alarming_symptom_overrides_prediction_witness :
  In "Chest Pain" ["Fever"; "Chest Pain"] /\
  Prediction.isEmergency sample_prediction ["Fever"; "Chest Pain"] = true.
Proof.
  assert (Hin : In "Chest Pain" ["Fever"; "Chest Pain"]) by (simpl; tauto).
  split; [exact Hin |].
  exact (proj1 (alarming_symptom_overrides_prediction sample_prediction
                  ["Fever"; "Chest Pain"]) (or_introl Hin)).
Defined.

Lemma only_two_symptoms_raise_banner_witness :
  Forall (fun s => In s catalogue) ["Chest Tightness"; "Shortness of Breath"] /\
  truthy (get_opt sample_prediction "emergency_flag") = false /\
  ~ (In "Chest Pain" ["Chest Tightness"; "Shortness of Breath"] \/
     In "Difficulty Breathing" ["Chest Tightness"; "Shortness of Breath"]) /\
  Prediction.isEmergency sample_prediction ["Chest Tightness"; "Shortness of Breath"]
  <> true.
Proof.
  assert (Hcat : Forall (fun s => In s catalogue)
                   ["Chest Tightness"; "Shortness of Breath"])
    by (repeat constructor; vm_compute; tauto).
  assert (Hflag : truthy (get_opt sample_prediction "emergency_flag") = false)
    by reflexivity.
  assert (Hnone : ~ (In "Chest Pain" ["Chest Tightness"; "Shortness of Breath"] \/
                     In "Difficulty Breathing" ["Chest Tightness"; "Shortness of Breath"])).
  { intros [[H | [H | []]] | [H | [H | []]]]; discriminate. }
  split; [exact Hcat |]. split; [exact Hflag |]. split; [exact Hnone |].
  intros Hem. apply Hnone.
  exact (proj1 (only_two_symptoms_raise_banner sample_prediction
                  ["Chest Tightness"; "Shortness of Breath"] Hcat Hflag) Hem).
Defined.

Lemma blank_or_busy_message_is_ignored_witness :
  all_space (chat_message sample_chat (Some "   ")) = true /\
  Chat.handleSend (quiet (always (Resolved response_ok))) signed_in sample_chat
    (Some "   ") start
  = (Normal tt, start).
Proof.
  assert (Hblank : all_space (chat_message sample_chat (Some "   ")) = true)
    by reflexivity.
  split; [exact Hblank |].
  exact (blank_or_busy_message_is_ignored (quiet (always (Resolved response_ok)))
           signed_in sample_chat (Some "   ") start (or_introl Hblank)).
Defined.

Lemma one_reply_per_message_witness :
  let w := answering (always (Resolved response_ok))
             (inr (gemini_answer "Rest and drink water.")) (inr VNull) writes_succeed in
  chat_blocked signed_in sample_chat (chat_message sample_chat None) = false /\
  setDoc_outcome w 0%nat = None /\
  setDoc_outcome w 1%nat = None /\
  fst (Chat.handleSend w signed_in sample_chat None start) = Normal tt /\
  busy_flags (effects (snd (Chat.handleSend w signed_in sample_chat None start)))
  = [true; false].
Proof.
  cbv zeta.
  assert (Hopen : chat_blocked signed_in sample_chat (chat_message sample_chat None) = false)
    by reflexivity.
  split; [exact Hopen |]. split; [reflexivity |]. split; [reflexivity |].
  pose proof (one_reply_per_message
                (answering (always (Resolved response_ok))
                   (inr (gemini_answer "Rest and drink water.")) (inr VNull) writes_succeed)
                signed_in sample_chat None Hopen eq_refl eq_refl) as H.
  cbv zeta in H. destruct H as (Hdone & Hflags & _).
  split; [exact Hdone | exact Hflags].
Defined.

Lemma failed_first_write_loses_the_message_witness :
  let w := answering (always (Resolved response_ok))
             (inr (gemini_answer "Rest and drink water.")) (inr VNull) first_write_fails in
  chat_blocked signed_in sample_chat (chat_message sample_chat None) = false /\
  setDoc_outcome w 0%nat = Some unavailable /\
  fst (Chat.handleSend w signed_in sample_chat None start) = Thrown unavailable /\
  network (effects (snd (Chat.handleSend w signed_in sample_chat None start))) = [].
Proof.
  cbv zeta.
  assert (Hopen : chat_blocked signed_in sample_chat (chat_message sample_chat None) = false)
    by reflexivity.
  split; [exact Hopen |]. split; [reflexivity |].
  rewrite (failed_first_write_loses_the_message
             (answering (always (Resolved response_ok))
                (inr (gemini_answer "Rest and drink water.")) (inr VNull) first_write_fails)
             signed_in sample_chat None unavailable Hopen eq_refl).
  split; reflexivity.
Defined.

Lemma exhausted_chat_turn_stores_error_notice_witness :
  let w := quiet (always (Resolved response_500)) in
  chat_blocked signed_in sample_chat (chat_message sample_chat None) = false /\
  (forall j, (j <= 2)%nat -> failed (transport w j) = true) /\
  written (effects (snd (Chat.handleSend w signed_in sample_chat None start))) =
    [Chat.message_doc (VStr "How can I relieve a headache?") "user" "0";
     Chat.message_doc (VStr Chat.error_text) "ai_error" "1"].
Proof.
  cbv zeta.
  assert (Hopen : chat_blocked signed_in sample_chat (chat_message sample_chat None) = false)
    by reflexivity.
  assert (Hfail : forall j, (j <= 2)%nat ->
                    failed (transport (quiet (always (Resolved response_500))) j) = true)
    by (intros j _; reflexivity).
  split; [exact Hopen |]. split; [exact Hfail |].
  rewrite (exhausted_chat_turn_stores_error_notice
             (quiet (always (Resolved response_500))) signed_in sample_chat None
             Hopen eq_refl eq_refl Hfail).
  reflexivity.
Defined.

Lemma answered_chat_turn_witness :
  let w := answering (always (Resolved response_ok))
             (inr (gemini_answer "Rest and drink water.")) (inr VNull) writes_succeed in
  chat_blocked signed_in sample_chat (chat_message sample_chat None) = false /\
  transport w 0%nat = Resolved response_ok /\
  ok response_ok = true /\
  response_json w response_ok = inr (gemini_answer "Rest and drink water.") /\
  written (effects (snd (Chat.handleSend w signed_in sample_chat None start))) =
    [Chat.message_doc (VStr "How can I relieve a headache?") "user" "0";
     Chat.message_doc (VStr "Rest and drink water.") "ai" "1"].
Proof.
  cbv zeta.
  assert (Hopen : chat_blocked signed_in sample_chat (chat_message sample_chat None) = false)
    by reflexivity.
  split; [exact Hopen |]. split; [reflexivity |]. split; [reflexivity |].
  split; [reflexivity |].
  pose proof (answered_chat_turn
                (answering (always (Resolved response_ok))
                   (inr (gemini_answer "Rest and drink water.")) (inr VNull) writes_succeed)
                signed_in sample_chat None response_ok Hopen eq_refl eq_refl eq_refl eq_refl)
    as H.
  cbv zeta in H. destruct H as (_ & Hreply & _).
  exact (Hreply (gemini_answer "Rest and drink water.") _ eq_refl eq_refl).
Defined.

Lemma chat_turn_requests_witness :
  let w := quiet (always (Resolved response_429)) in
  chat_blocked signed_in sample_chat (chat_message sample_chat None) = false /\
  setDoc_outcome w 0%nat = None /\
  exists k,
    (k < 3)%nat /\
    network (effects (snd (Chat.handleSend w signed_in sample_chat None start))) =
      rounds (api_url w) (chat_request w sample_chat (chat_message sample_chat None)) 1000 k
      ++ [Fetch (api_url w) (chat_request w sample_chat (chat_message sample_chat None))].
Proof.
  cbv zeta.
  assert (Hopen : chat_blocked signed_in sample_chat (chat_message sample_chat None) = false)
    by reflexivity.
  split; [exact Hopen |]. split; [reflexivity |].
  pose proof (chat_turn_requests (quiet (always (Resolved response_429)))
                signed_in sample_chat None Hopen eq_refl) as H.
  cbv zeta in H. destruct H as (_ & _ & _ & Hreq).
  exact Hreq.
Defined.

Lemma chat_history_roles_witness :
  nth_error (Chat.chatHistory sample_chat) 2 =
    Some [("text", VStr Chat.error_text); ("role", VStr "ai_error")] /\
  exists entry,
    nth_error (Chat.apiHistory sample_chat "hello") 2 = Some entry /\
    role_of entry = VStr "user".
Proof.
  assert (Hnth : nth_error (Chat.chatHistory sample_chat) 2 =
                 Some [("text", VStr Chat.error_text); ("role", VStr "ai_error")])
    by reflexivity.
  split; [exact Hnth |].
  destruct (proj1 (proj2 (proj2 (chat_history_roles sample_chat "hello"))) 2%nat _ Hnth)
    as (entry & Hentry & _ & _ & Huser).
  exists entry. split; [exact Hentry |].
  apply Huser. discriminate.
Defined.

Lemma prediction_always_settles_witness :
  let w := quiet (always (Rejected network_down)) in
  Prediction.selectedSymptoms sample_profile <> [] /\
  fst (Prediction.handlePrediction w signed_in sample_profile start) = Normal tt /\
  busy_flags (effects (snd (Prediction.handlePrediction w signed_in sample_profile start)))
  = [true; false].
Proof.
  cbv zeta.
  assert (Hsome : Prediction.selectedSymptoms sample_profile <> []) by discriminate.
  split; [exact Hsome |].
  pose proof (prediction_always_settles (quiet (always (Rejected network_down)))
                signed_in sample_profile) as H.
  cbv zeta in H. destruct H as (Hdone & _ & Hrun).
  split; [exact Hdone | exact (proj1 (Hrun Hsome))].
Defined.

Lemma exhausted_prediction_shows_error_witness :
  let w := quiet (always (Resolved response_429)) in
  Prediction.selectedSymptoms sample_profile <> [] /\
  (forall j, (j <= 2)%nat -> failed (transport w j) = true) /\
  shown (effects (snd (Prediction.handlePrediction w signed_in sample_profile start))) =
    [VNull;
     VObj [("error", VStr "Could not retrieve AI prediction. API returned status 429")]].
Proof.
  cbv zeta.
  assert (Hsome : Prediction.selectedSymptoms sample_profile <> []) by discriminate.
  assert (Hfail : forall j, (j <= 2)%nat ->
                    failed (transport (quiet (always (Resolved response_429))) j) = true)
    by (intros j _; reflexivity).
  split; [exact Hsome |]. split; [exact Hfail |].
  rewrite (exhausted_prediction_shows_error (quiet (always (Resolved response_429)))
             signed_in sample_profile Hsome Hfail).
  reflexivity.
Defined.


Lemma parsed_answer_is_shown_witness :
  let w := answering (always (Resolved response_ok))
             (inr (gemini_answer "{}")) (inr sample_prediction) writes_succeed in
  Prediction.selectedSymptoms sample_profile <> [] /\
  truthy (first_candidate_text
            (VArr [VObj [("content", VObj [("parts", VArr [VObj [("text", VStr "{}")]])])]]))
  = true /\
  shown (effects (snd (Prediction.handlePrediction w signed_in sample_profile start))) =
    [VNull; sample_prediction].
Proof.
  cbv zeta.
  assert (Hsome : Prediction.selectedSymptoms sample_profile <> []) by discriminate.
  split; [exact Hsome |]. split; [reflexivity |].
  pose proof (parsed_answer_is_shown
                (answering (always (Resolved response_ok))
                   (inr (gemini_answer "{}")) (inr sample_prediction) writes_succeed)
                signed_in sample_profile response_ok (gemini_answer "{}") _ sample_prediction
                Hsome eq_refl eq_refl eq_refl eq_refl eq_refl eq_refl eq_refl) as H.
  cbv zeta in H. exact (proj1 (proj2 H)).
Defined.

Lemma failed_history_write_replaces_answer_witness :
  let w := answering (always (Resolved response_ok))
             (inr (gemini_answer "{}")) (inr sample_prediction) first_write_fails in
  Prediction.selectedSymptoms sample_profile <> [] /\
  db signed_in = true /\
  setDoc_outcome w 0%nat = Some unavailable /\
  shown (effects (snd (Prediction.handlePrediction w signed_in sample_profile start))) =
    [VNull; sample_prediction;
     VObj [("error", VStr "Could not retrieve AI prediction. unavailable")]].
Proof.
  cbv zeta.
  assert (Hsome : Prediction.selectedSymptoms sample_profile <> []) by discriminate.
  split; [exact Hsome |]. split; [reflexivity |]. split; [reflexivity |].
  pose proof (failed_history_write_replaces_answer
                (answering (always (Resolved response_ok))
                   (inr (gemini_answer "{}")) (inr sample_prediction) first_write_fails)
                signed_in sample_profile response_ok (gemini_answer "{}") _
                sample_prediction unavailable
                Hsome eq_refl eq_refl eq_refl eq_refl eq_refl eq_refl
                eq_refl eq_refl eq_refl eq_refl) as H.
  cbv zeta in H. exact (proj1 (proj2 H)).
Defined.


(** * Start-up *)

Ltac startup :=
  unfold Startup.initialize; flow; cbv [Startup.sdk_call];
  cbn [writes ids effects fst snd app].

(** X20.  Start-up without a usable configuration leaves the app waiting.
    When the environment variable is absent, empty or the text "{}", or
    when it parses to a value whose [apiKey] or [appId] is missing or
    falsy, the effect logs one message and returns: the SDK is not called,
    no handle is handed out, and the ready flag is not set. *)
Theorem startup_without_config_waits w sdk configEnv :
  Startup.firebaseConfigStr configEnv = "{}" \/
  (exists config key,
     JSON_parse w (VStr (Startup.firebaseConfigStr configEnv)) = inr config /\
     get config "apiKey" = inr key /\
     (truthy key = false \/
      exists appId, get config "appId" = inr appId /\ truthy appId = false)) ->
  let run := Startup.initialize w sdk configEnv start in
  fst run = Normal tt /\
  (exists text, effects (snd run) = [ConsoleMessage text]) /\
  marks_ready (effects (snd run)) = false /\
  touches_firebase (effects (snd run)) = false.
Proof.
  intros Hcause. cbv zeta. startup.
  destruct (String.eqb (Startup.firebaseConfigStr configEnv) "{}") eqn:Hempty.
  - cbn. repeat split. eauto.
  - destruct Hcause as [Hstr | (config & key & Hparse & Hkey & Hrest)].
    + rewrite Hstr in Hempty. discriminate.
    + rewrite Hparse. cbn [writes ids effects fst snd]. rewrite Hkey.
      cbn [writes ids effects fst snd].
      destruct Hrest as [Hfalsy | (appId & Happ & Hfalsy)].
      * rewrite Hfalsy. cbn. repeat split. eauto.
      * destruct (truthy key); cbn [negb writes ids effects fst snd].
        -- rewrite Happ. cbn [writes ids effects fst snd]. rewrite Hfalsy.
           cbn. repeat split. eauto.
        -- cbn. repeat split. eauto.
Qed.

(** X21.  Start-up that throws marks the app ready without Firebase.  A
    configuration text that does not parse, or that parses to [null], sends
    the effect into its [catch]: the error is logged, the ready flag is
    set, and the SDK is never called.  The same happens when
    [initializeApp] throws on a usable configuration. *)
Theorem startup_failure_marks_ready w sdk configEnv :
  Startup.firebaseConfigStr configEnv <> "{}" ->
  let run := Startup.initialize w sdk configEnv start in
  let label := "Firebase Initialization Failed (Overall Catch):" in
  (forall e,
     JSON_parse w (VStr (Startup.firebaseConfigStr configEnv)) = inl e ->
     run = (Normal tt,
            {| writes := 0; ids := 0;
               effects := [ConsoleError label e; SetAuthReady true] |})) /\
  (JSON_parse w (VStr (Startup.firebaseConfigStr configEnv)) = inr VNull ->
   run = (Normal tt,
          {| writes := 0; ids := 0;
             effects := [ConsoleError label (cannot_read VNull "apiKey");
                         SetAuthReady true] |})) /\
  (forall config appId e,
     usable_config w configEnv config appId ->
     sdk "initializeApp" = Some e ->
     run = (Normal tt,
            {| writes := 0; ids := 0;
               effects := [Sdk "initializeApp" (Some config);
                           ConsoleError label e; SetAuthReady true] |})).
Proof.
  intros Hstr. cbv zeta. startup.
  apply String.eqb_neq in Hstr. rewrite Hstr.
  split; [| split].
  - intros e Hparse. rewrite Hparse. reflexivity.
  - intros Hparse. rewrite Hparse. reflexivity.
  - intros config appId e (_ & Hparse & (key & Hkey & Htruthy) & Happ & Happtruthy) Hsdk.
    rewrite Hparse. cbn [writes ids effects fst snd]. rewrite Hkey.
    cbn [writes ids effects fst snd]. rewrite Htruthy. cbn [negb].
    rewrite Happ. cbn [writes ids effects fst snd]. rewrite Happtruthy. cbn [negb].
    rewrite Hsdk. reflexivity.
Qed.

(** X22.  Start-up on a usable configuration with an SDK that does not
    throw: the four set-up calls are made in order, the database handle,
    the auth handle and the [appId] of the configuration are handed to the
    state, sign-in is started and the auth listener registered.  The ready
    flag is not set by the effect itself; it is left to the listener. *)
Theorem startup_hands_out_handles w sdk configEnv config appId :
  usable_config w configEnv config appId ->
  (forall call, sdk call = None) ->
  Startup.initialize w sdk configEnv start =
  (Normal tt,
   {| writes := 0; ids := 0;
      effects :=
        [Sdk "initializeApp" (Some config); Sdk "getFirestore" None;
         Sdk "setLogLevel" (Some (VStr "debug")); Sdk "getAuth" None;
         SetDb; SetAuth; SetAppId appId; CallAttemptAuth;
         Sdk "onAuthStateChanged" None] |}) /\
  marks_ready (effects (snd (Startup.initialize w sdk configEnv start))) = false.
Proof.
  intros (Hstr & Hparse & (key & Hkey & Htruthy) & Happ & Happtruthy) Hsdk.
  assert (Hrun : Startup.initialize w sdk configEnv start =
    (Normal tt,
     {| writes := 0; ids := 0;
        effects :=
          [Sdk "initializeApp" (Some config); Sdk "getFirestore" None;
           Sdk "setLogLevel" (Some (VStr "debug")); Sdk "getAuth" None;
           SetDb; SetAuth; SetAppId appId; CallAttemptAuth;
           Sdk "onAuthStateChanged" None] |})).
  { startup. apply String.eqb_neq in Hstr. rewrite Hstr.
    rewrite Hparse. cbn [writes ids effects fst snd]. rewrite Hkey.
    cbn [writes ids effects fst snd]. rewrite Htruthy. cbn [negb].
    rewrite Happ. cbn [writes ids effects fst snd]. rewrite Happtruthy. cbn [negb].
    rewrite !Hsdk. reflexivity. }
  split; [exact Hrun |]. rewrite Hrun. reflexivity.
Qed.

(** X23.  In every world the start-up effect returns normally: nothing it
    calls can make it throw.  It sets the ready flag exactly when it logs
    the failure of its [catch], and it hands out the database handle only
    on a usable configuration after [initializeApp], [getFirestore],
    [setLogLevel] and [getAuth] all returned. *)
Theorem startup_never_throws w sdk configEnv :
  let run := Startup.initialize w sdk configEnv start in
  fst run = Normal tt /\
  (marks_ready (effects (snd run)) = true <->
   exists e, In (ConsoleError "Firebase Initialization Failed (Overall Catch):" e)
               (effects (snd run))) /\
  (In SetDb (effects (snd run)) ->
   (exists config appId, usable_config w configEnv config appId) /\
   sdk "initializeApp" = None /\ sdk "getFirestore" = None /\
   sdk "setLogLevel" = None /\ sdk "getAuth" = None).
Proof.
  cbv zeta. startup.
  assert (Hno : forall l : list Effect,
            l = [] \/ (exists text, l = [ConsoleMessage text]) ->
            (marks_ready l = true <->
             exists e, In (ConsoleError "Firebase Initialization Failed (Overall Catch):" e) l)
            /\ (In SetDb l -> False)).
  { intros l [-> | (text & ->)]; (split; [split |]); cbn;
      try discriminate; try (intros (e & [H | []]); discriminate);
      try (intros (e & []));
      intuition discriminate. }
  destruct (String.eqb (Startup.firebaseConfigStr configEnv) "{}") eqn:Hempty.
  { cbn [fst snd effects]. split; [reflexivity |].
    destruct (Hno [ConsoleMessage "Firebase config is missing or empty! Make sure VITE_FIREBASE_CONFIG is set in Vercel."])
      as (Hready & Hdb); [eauto |].
    split; [exact Hready | intros H; destruct (Hdb H)]. }
  apply String.eqb_neq in Hempty.
  destruct (JSON_parse w (VStr (Startup.firebaseConfigStr configEnv)))
    as [e | config] eqn:Hparse; cbn [writes ids effects fst snd].
  { split; [reflexivity |]. split.
    - split; [intros _; exists e; now left | reflexivity].
    - intros [H | [H | []]]; discriminate. }
  destruct (get config "apiKey") as [e | key] eqn:Hkey; cbn [writes ids effects fst snd].
  { split; [reflexivity |]. split.
    - split; [intros _; exists e; now left | reflexivity].
    - intros [H | [H | []]]; discriminate. }
  destruct (truthy key) eqn:Htruthy; cbn [negb writes ids effects fst snd].
  2:{ split; [reflexivity |].
      destruct (Hno [ConsoleMessage "Firebase config is missing apiKey! Check your VITE_FIREBASE_CONFIG."])
        as (Hready & Hdb); [eauto |].
      split; [exact Hready | intros H; destruct (Hdb H)]. }
  destruct (get config "appId") as [e | appId] eqn:Happ; cbn [writes ids effects fst snd].
  { split; [reflexivity |]. split.
    - split; [intros _; exists e; now left | reflexivity].
    - intros [H | [H | []]]; discriminate. }
  destruct (truthy appId) eqn:Happtruthy; cbn [negb writes ids effects fst snd].
  2:{ split; [reflexivity |].
      destruct (Hno [ConsoleMessage "Your firebaseConfig is missing the 'appId'!"])
        as (Hready & Hdb); [eauto |].
      split; [exact Hready | intros H; destruct (Hdb H)]. }
  assert (Husable : exists config0 appId0, usable_config w configEnv config0 appId0).
  { exists config, appId. unfold usable_config. repeat split; eauto. }
  destruct (sdk "initializeApp") as [e |] eqn:H1; cbn [writes ids effects fst snd].
  { split; [reflexivity |]. split.
    - split; [intros _; exists e; right; now left | reflexivity].
    - intros [H | [H | [H | []]]]; discriminate. }
  destruct (sdk "getFirestore") as [e |] eqn:H2; cbn [writes ids effects fst snd].
  { split; [reflexivity |]. split.
    - split; [intros _; exists e; right; right; now left | reflexivity].
    - intros [H | [H | [H | [H | []]]]]; discriminate. }
  destruct (sdk "setLogLevel") as [e |] eqn:H3; cbn [writes ids effects fst snd].
  { split; [reflexivity |]. split.
    - split; [intros _; exists e; right; right; right; now left | reflexivity].
    - intros [H | [H | [H | [H | [H | []]]]]]; discriminate. }
  destruct (sdk "getAuth") as [e |] eqn:H4; cbn [writes ids effects fst snd].
  { split; [reflexivity |]. split.
    - split; [intros _; exists e; do 4 right; now left | reflexivity].
    - intros [H | [H | [H | [H | [H | [H | []]]]]]]; discriminate. }
  destruct (sdk "onAuthStateChanged") as [e |] eqn:H5; cbn [writes ids effects fst snd].
  - split; [reflexivity |]. split.
    + split; [intros _; exists e; do 9 right; now left | reflexivity].
    + intros _. repeat split; auto.
  - split; [reflexivity |]. split.
    + split; [discriminate |].
      intros (e & H). cbn in H.
      repeat (destruct H as [H | H]; [discriminate |]). destruct H.
    + intros _. repeat split; auto.
Qed.


Lemma startup_without_config_waits_witness :
  Startup.firebaseConfigStr None = "{}" /\
  Startup.initialize (configured (inr sample_config)) sdk_works None start =
  (Normal tt,
   {| writes := 0; ids := 0;
      effects := [ConsoleMessage "Firebase config is missing or empty! Make sure VITE_FIREBASE_CONFIG is set in Vercel."] |}) /\
  marks_ready
    (effects (snd (Startup.initialize (configured (inr sample_config)) sdk_works None start)))
  = false.
Proof.
  assert (Hstr : Startup.firebaseConfigStr None = "{}") by reflexivity.
  split; [exact Hstr |]. split; [reflexivity |].
  pose proof (startup_without_config_waits (configured (inr sample_config)) sdk_works None
                (or_introl Hstr)) as H.
  cbv zeta in H. exact (proj1 (proj2 (proj2 H))).
Defined.

Lemma startup_failure_marks_ready_witness :
  let w := configured (inl {| name := "SyntaxError"; message := "Unexpected token" |}) in
  Startup.firebaseConfigStr (Some "{apiKey}") <> "{}" /\
  JSON_parse w (VStr (Startup.firebaseConfigStr (Some "{apiKey}")))
  = inl {| name := "SyntaxError"; message := "Unexpected token" |} /\
  marks_ready (effects (snd (Startup.initialize w sdk_works (Some "{apiKey}") start)))
  = true.
Proof.
  cbv zeta.
  assert (Hstr : Startup.firebaseConfigStr (Some "{apiKey}") <> "{}") by discriminate.
  split; [exact Hstr |]. split; [reflexivity |].
  pose proof (startup_failure_marks_ready
                (configured (inl {| name := "SyntaxError"; message := "Unexpected token" |}))
                sdk_works (Some "{apiKey}") Hstr) as H.
  cbv zeta in H. destruct H as (Hparse & _).
  rewrite (Hparse _ eq_refl). reflexivity.
Defined.

Lemma sample_config_usable :
  usable_config (configured (inr sample_config)) (Some "{...}") sample_config
    (VStr "1:2:web:3").
Proof.
  unfold usable_config. split; [discriminate |]. split; [reflexivity |].
  split; [exists (VStr "AIza"); split; reflexivity |].
  split; reflexivity.
Defined.

Lemma startup_hands_out_handles_witness :
  usable_config (configured (inr sample_config)) (Some "{...}") sample_config
    (VStr "1:2:web:3") /\
  (forall call, sdk_works call = None) /\
  touches_firebase
    (effects (snd (Startup.initialize (configured (inr sample_config)) sdk_works
                     (Some "{...}") start))) = true /\
  marks_ready
    (effects (snd (Startup.initialize (configured (inr sample_config)) sdk_works
                     (Some "{...}") start))) = false.
Proof.
  assert (Hsdk : forall call, sdk_works call = None) by reflexivity.
  split; [exact sample_config_usable |]. split; [exact Hsdk |].
  destruct (startup_hands_out_handles (configured (inr sample_config)) sdk_works
              (Some "{...}") sample_config (VStr "1:2:web:3")
              sample_config_usable Hsdk) as (Hrun & Hready).
  split; [rewrite Hrun; reflexivity | exact Hready].
Defined.

Lemma startup_never_throws_witness :
  In SetDb
    (effects (snd (Startup.initialize (configured (inr sample_config)) sdk_works
                     (Some "{...}") start))) /\
  sdk_works "getAuth" = None /\
  fst (Startup.initialize (configured (inr sample_config)) sdk_rejects_config
         (Some "{...}") start) = Normal tt.
Proof.
  assert (Hdb : In SetDb
                  (effects (snd (Startup.initialize (configured (inr sample_config))
                                   sdk_works (Some "{...}") start))))
    by (vm_compute; tauto).
  split; [exact Hdb |].
  split.
  - pose proof (startup_never_throws (configured (inr sample_config)) sdk_works
                  (Some "{...}")) as H.
    cbv zeta in H. destruct H as (_ & _ & Hhandles).
    exact (proj2 (proj2 (proj2 (proj2 (Hhandles Hdb))))).
  - pose proof (startup_never_throws (configured (inr sample_config)) sdk_rejects_config
                  (Some "{...}")) as H.
    cbv zeta in H. exact (proj1 H).
Defined.
